(** * InSituCore: pipeline controller and default-key inference

    A shallow embedding of the parts of [app/main.py] and
    [utils/app_visuals.py] that carry logic: the busy tracker, the stage
    classifier, output discovery, the overwrite confirmation, the
    recent-project registry and [_infer_default_color].

    Python [str] values are modelled as [string]; every character stands
    for a code point below 256.  Python [int] is [Z]. *)

From Stdlib Require Import ZArith List String Ascii Bool Lia.
From Stdlib Require Import DecimalString Sorted Permutation.
Import ListNotations.

Open Scope list_scope.
Open Scope string_scope.

(** ** Python string primitives used by the sources *)

Module PyStr.

  (** [str.isspace] on one character, for code points below 256:
      TAB..CR, FS..US, SPACE, NEL and NBSP. *)
Definition isspace (c : ascii) : bool :=
    let n := N_of_ascii c in
    (((9 <=? n) && (n <=? 13)) || ((28 <=? n) && (n <=? 32))
     || (n =? 133) || (n =? 160))%N.

Fixpoint lstrip (s : string) : string :=
    match s with
    | EmptyString => EmptyString
    | String c r => if isspace c then lstrip r else s
    end.

Fixpoint rstrip (s : string) : string :=
    match s with
    | EmptyString => EmptyString
    | String c r =>
        match rstrip r with
        | EmptyString => if isspace c then EmptyString else String c EmptyString
        | r' => String c r'
        end
    end.

  (** [s.strip()] *)
Definition strip (s : string) : string := rstrip (lstrip s).

  (** Truth value of a string: non-empty. *)
Definition truthy (s : string) : bool :=
    match s with EmptyString => false | _ => true end.

  (** [s.startswith(p)] *)
Fixpoint startswith (p s : string) : bool :=
    match p, s with
    | EmptyString, _ => true
    | String a p', String b s' => Ascii.eqb a b && startswith p' s'
    | String _ _, EmptyString => false
    end.

  (** [s.endswith(suf)] *)
Fixpoint endswith (suf s : string) : bool :=
    String.eqb s suf
    || match s with
       | EmptyString => false
       | String _ r => endswith suf r
       end.

  (** [s[:-1]] *)
Fixpoint drop_last (s : string) : string :=
    match s with
    | EmptyString => EmptyString
    | String c EmptyString => EmptyString
    | String c r => String c (drop_last r)
    end.

  (** [s[n:]] *)
Fixpoint drop (n : nat) (s : string) : string :=
    match n, s with
    | O, _ => s
    | S n', String _ r => drop n' r
    | S _, EmptyString => EmptyString
    end.

  (** [s.replace(old, new, 1)]: only the leftmost occurrence. *)
Fixpoint replace_first (old new s : string) : string :=
    if startswith old s then new ++ drop (String.length old) s
    else match s with
         | EmptyString => EmptyString
         | String c r => String c (replace_first old new r)
         end.

  (** [tok in s] *)
Fixpoint contains (tok s : string) : bool :=
    startswith tok s
    || match s with
       | EmptyString => false
       | String _ r => contains tok r
       end.

  (** Line boundaries of [str.splitlines] below code point 256. *)
Definition is_linebreak (c : ascii) : bool :=
    let n := N_of_ascii c in
    (((10 <=? n) && (n <=? 13)) || ((28 <=? n) && (n <=? 30)) || (n =? 133))%N.

  (** [s.splitlines()]; [cur] is the line being read and [after_cr]
      tells that the previous character was CR, so that CR LF is one
      boundary.  A trailing boundary opens no further line. *)
Fixpoint splitlines_aux (cur : string) (after_cr : bool) (s : string)
    : list string :=
    match s with
    | EmptyString =>
        match cur with EmptyString => [] | _ => [cur] end
    | String c r =>
        if after_cr && (N_of_ascii c =? 10)%N then splitlines_aux cur false r
        else if is_linebreak c
             then cur :: splitlines_aux EmptyString (N_of_ascii c =? 13)%N r
             else splitlines_aux (cur ++ String c EmptyString) false r
    end.

Definition splitlines (s : string) : list string :=
    splitlines_aux EmptyString false s.

  (** [sep.join(parts)] *)
Definition join (sep : string) (parts : list string) : string :=
    String.concat sep parts.

  (** [str(n)] for an [int]. *)
Definition str_of_int (n : Z) : string :=
    NilZero.string_of_int (Z.to_int n).

  (** [sorted(xs)] and [sorted(xs, key=..., reverse=True)]: a stable
      sort, written as an insertion sort over the comparison [le]. *)
Section Sorted.
Context {A : Type} (le : A -> A -> bool).

Fixpoint insert (x : A) (l : list A) : list A :=
      match l with
      | [] => [x]
      | y :: r => if le x y then x :: l else y :: insert x r
      end.

Definition sorted (l : list A) : list A := fold_right insert [] l.
End Sorted.

  (** [x in xs] for a sequence of strings. *)
Definition mem (x : string) (xs : list string) : bool :=
    existsb (String.eqb x) xs.

End PyStr.

(** ** Values produced by [json.loads] *)

Module Json.

#[warnings="-register-all"]
Inductive json : Type :=
| JNull
| JBool (b : bool)
| JInt (n : Z)
| JFloat (mantissa exponent : Z)
| JStr (s : string)
| JList (items : list json)
| JObject (fields : list (string * json)).

(** [d.get(key)] on the fields of a parsed object: [None] when the key
    is absent. *)
Fixpoint dict_get (key : string) (fields : list (string * json))
  : option json :=
  match fields with
  | [] => None
  | (k, v) :: rest => if String.eqb k key then Some v else dict_get key rest
  end.

End Json.

(** ** Exceptions and results *)

Inductive exn : Type :=
| AttributeError
| IndexError.

Inductive result (A : Type) : Type :=
| Ok (a : A)
| Raise (e : exn).

Arguments Ok {A} a.
Arguments Raise {A} e.

Definition bind {A B : Type} (m : result A) (k : A -> result B) : result B :=
  match m with
  | Ok a => k a
  | Raise e => Raise e
  end.

Notation "x <- m ;; k" := (bind m (fun x => k))
  (at level 61, m at next level, right associativity).

(** ** [utils/app_visuals.py] *)

Module Visuals.
Import PyStr Json.

(** What [_infer_default_color] finds at [cluster_info_path]: no path or
    no regular file, text that [json.loads] rejects with
    [JSONDecodeError], or a parsed payload. *)
Inductive cluster_info : Type :=
| Absent
| Malformed
| Loaded (payload : json).

Section InferDefaultColor.

(** [str(item)] for a value that is not a string (numbers, booleans,
    [None], nested containers); on a string [str] is the identity. *)
Variable str_other : json -> string.

Definition py_str (v : json) : string :=
  match v with
  | JStr s => s
  | _ => str_other v
  end.

Definition _to_candidates (value : option json) : list string :=
  match value with
  | Some (JList items) =>
      filter truthy (map (fun item => strip (py_str item)) items)
  | Some (JStr s) => if truthy (strip s) then [strip s] else []
  | _ => []
  end.

(** [payload.get(key)]: only a [dict] has the method. *)
Definition payload_get (payload : json) (key : string)
  : result (option json) :=
  match payload with
  | JObject fields => Ok (dict_get key fields)
  | _ => Raise AttributeError
  end.

(** The candidates gathered from [preferred_key] (lines 38-41). *)
Definition preferred_candidates (payload : json) (preferred_key : option string)
  : result (list string) :=
  match preferred_key with
  | Some pk =>
      if truthy pk then
        v <- payload_get payload pk ;;
        let candidates := _to_candidates v in
        if endswith "s" pk then
          v' <- payload_get payload (drop_last pk) ;;
          Ok (candidates ++ _to_candidates v')%list
        else Ok candidates
      else Ok []
  | None => Ok []
  end.

(** All candidates, with the [cluster_key] fallback (lines 37-43). *)
Definition collect_candidates (payload : json) (preferred_key : option string)
  : result (list string) :=
  candidates <- preferred_candidates payload preferred_key ;;
  match candidates with
  | [] =>
      v <- payload_get payload "cluster_key" ;;
      Ok (_to_candidates v)
  | _ => Ok candidates
  end.

(** The value of [cluster_key] after lines 32-49. *)
Definition metadata_key (columns : list string) (info : cluster_info)
  (preferred_key : option string) : result (option string) :=
  match info with
  | Absent => Ok None
  | Malformed => Ok None
  | Loaded payload =>
      candidates <- collect_candidates payload preferred_key ;;
      Ok (find (fun candidate => mem candidate columns) candidates)
  end.

(** [xs[-1]] *)
Definition index_last (xs : list string) : result string :=
  match rev xs with
  | [] => Raise IndexError
  | x :: _ => Ok x
  end.

Definition leiden_cols (columns : list string) : list string :=
  filter (startswith "leiden_") columns.

(** Lines 54-64, reached when no metadata key was returned. *)
Definition infer_from_columns (columns : list string) (fallback : string)
  : result string :=
  match leiden_cols columns with
  | _ :: _ => index_last (sorted String.leb (leiden_cols columns))
  | [] =>
      if mem fallback columns then Ok fallback
      else match columns with
           | c :: _ => Ok c
           | [] => Ok fallback
           end
  end.

Definition _infer_default_color (columns : list string) (info : cluster_info)
  (fallback : string) (preferred_key : option string) : result string :=
  cluster_key <- metadata_key columns info preferred_key ;;
  match cluster_key with
  | Some k =>
      if truthy k && mem k columns then Ok k
      else infer_from_columns columns fallback
  | None => infer_from_columns columns fallback
  end.

End InferDefaultColor.

End Visuals.

(** ** [app/main.py] *)

Module App.
Import PyStr.

(** *** Paths and the file system *)

(** A [pathlib.Path] is its sequence of components; [p / c] appends one. *)
Definition Path : Type := list string.

Definition joinpath (p : Path) (c : string) : Path := (p ++ [c])%list.

Notation "p // c" := (joinpath p c) (at level 40, left associativity).

(** [str(p)] *)
Definition path_str (p : Path) : string := join "/" p.

(** [p.name] *)
Definition path_name (p : Path) : string :=
  match rev p with
  | [] => EmptyString
  | c :: _ => c
  end.

(** Index of the last ["."] of [s] when scanning from position [i]. *)
Fixpoint rfind_dot (i : nat) (s : string) : option nat :=
  match s with
  | EmptyString => None
  | String c r =>
      match rfind_dot (S i) r with
      | Some j => Some j
      | None => if Ascii.eqb c "."%char then Some i else None
      end
  end.

(** [s[:n]] *)
Fixpoint take (n : nat) (s : string) : string :=
  match n, s with
  | S n', String c r => String c (take n' r)
  | _, _ => EmptyString
  end.

(** [p.stem]: the name without its last suffix; a leading or a trailing
    dot starts no suffix. *)
Definition path_stem (p : Path) : string :=
  let name := path_name p in
  match rfind_dot 0 name with
  | Some i =>
      if (0 <? i)%nat && (i <? String.length name - 1)%nat
      then take i name else name
  | None => name
  end.

Definition path_eqb (p q : Path) : bool :=
  if list_eq_dec string_dec p q then true else false.

(** The file system as the test [p.exists()]. *)
Definition filesystem : Type := Path -> bool.

(** *** Output discovery (lines 732-750) *)

Definition pipeline_output_candidates (out_dir : Path) : list Path :=
  [ out_dir // "data" // "raw.h5ad";
    out_dir // "data" // "clustered.h5ad";
    out_dir // "data" // "cluster_info.json";
    out_dir // "data" // "markers_by_cluster.csv";
    out_dir // "xenium_qc" // "summary_by_run.csv";
    out_dir // "xenium_qc" // "gene_detection_overall.csv";
    out_dir // "plots" // "spatial.png";
    out_dir // "plots" // "umap.png";
    out_dir // "plots" // "compartments.png" ].

Definition _collect_existing_pipeline_outputs (fs : filesystem)
  (out_dir : Path) (karospace_path : option Path) : list Path :=
  let candidates :=
    (pipeline_output_candidates out_dir
     ++ match karospace_path with
        | Some kp => [kp]
        | None => []
        end)%list in
  filter fs candidates.

(** The dotplot image read by [_load_gene_expression_image] and written
    by [_generate_gene_expression_dotplot] (lines 1259, 1392). *)
Definition gene_expression_dotplot_path (out_dir : Path) : Path :=
  out_dir // "plots" // "gene_expression_dotplot.png".

(** *** Dialogs (lines 752-774) *)

Inductive StandardButton : Type := Yes | No.

Record QMessageBox : Type := {
  windowTitle : string;
  text : string;
  informativeText : string;
  detailedText : string;
  standardButtons : list StandardButton;
  defaultButton : StandardButton
}.

(** A computation that may put modal dialogs in front of the user:
    [Exec box k] runs [box.exec()] and goes on with the button pressed. *)
Inductive ui (A : Type) : Type :=
| Done (a : A)
| Exec (box : QMessageBox) (k : StandardButton -> ui A).

Arguments Done {A} a.
Arguments Exec {A} box k.

(** Runs a [ui] computation against a user, returning the result and
    the dialogs that were shown, in order. *)
Fixpoint run_ui {A : Type} (user : QMessageBox -> StandardButton) (m : ui A)
  : A * list QMessageBox :=
  match m with
  | Done a => (a, [])
  | Exec box k =>
      let (a, shown) := run_ui user (k (user box)) in (a, box :: shown)
  end.

Definition button_eqb (a b : StandardButton) : bool :=
  match a, b with
  | Yes, Yes | No, No => true
  | _, _ => false
  end.

Definition overwrite_details (paths : list Path) : string :=
  let shown := map path_str (firstn 10 paths) in
  let details := join (String "010"%char EmptyString) shown in
  if (10 <? List.length paths)%nat
  then details ++ String "010"%char EmptyString ++ "... and "
       ++ str_of_int (Z.of_nat (List.length paths) - 10) ++ " more"
  else details.

Definition _confirm_overwrite (paths : list Path) (title prompt : string)
  : ui bool :=
  match paths with
  | [] => Done true
  | _ :: _ =>
      Exec {| windowTitle := title;
              text := prompt;
              informativeText := "Existing files will be replaced.";
              detailedText := overwrite_details paths;
              standardButtons := [Yes; No];
              defaultButton := No |}
           (fun pressed => Done (button_eqb pressed Yes))
  end.

(** The list handed to [_confirm_overwrite] by the four plot generators
    (lines 1280, 1318, 1356, 1394). *)
Definition existing_plot (fs : filesystem) (output_path : Path) : list Path :=
  if fs output_path then [output_path] else [].

(** *** Busy tracker (lines 776-812) *)

(** The fields and widgets behind the activity indicator.  [elidedText]
    stands for the label's font metrics at its current width. *)
Record BusyState : Type := {
  _busy_counter : Z;
  _busy_base_text : string;
  _busy_tick : Z;
  _busy_has_error : bool;
  _busy_timer_active : bool;
  runner_glyph : string;
  activity_stage : string;
  activity_stage_toolTip : string;
  status_chip : string;
  elidedText : string -> string
}.

Definition _runner_frames : list string :=
  ["o-/"; "o_/"; "o-\"; "o_\"].

(** The state set up by [__init__] and [_build_top_bar]. *)
Definition initial_busy (elide : string -> string) : BusyState :=
  {| _busy_counter := 0;
     _busy_base_text := "Running";
     _busy_tick := 0;
     _busy_has_error := false;
     _busy_timer_active := false;
     runner_glyph := "   ";
     activity_stage := "Idle";
     activity_stage_toolTip := EmptyString;
     status_chip := "Ready";
     elidedText := elide |}.

Definition _set_activity_stage (stage : string) (b : BusyState) : BusyState :=
  {| _busy_counter := _busy_counter b;
     _busy_base_text := _busy_base_text b;
     _busy_tick := _busy_tick b;
     _busy_has_error := _busy_has_error b;
     _busy_timer_active := _busy_timer_active b;
     runner_glyph := runner_glyph b;
     activity_stage := elidedText b stage;
     activity_stage_toolTip := stage;
     status_chip := status_chip b;
     elidedText := elidedText b |}.

Definition _enter_busy (stage_text : string) (b : BusyState) : BusyState :=
  let first := (_busy_counter b =? 0)%Z in
  _set_activity_stage stage_text
    {| _busy_counter := _busy_counter b + 1;
       _busy_base_text := stage_text;
       _busy_tick := if first then 0%Z else _busy_tick b;
       _busy_has_error := if first then false else _busy_has_error b;
       _busy_timer_active := if first then true else _busy_timer_active b;
       runner_glyph := runner_glyph b;
       activity_stage := activity_stage b;
       activity_stage_toolTip := activity_stage_toolTip b;
       status_chip := "Running";
       elidedText := elidedText b |}.

Definition _leave_busy (failed : bool) (b : BusyState) : BusyState :=
  let has_error := if failed then true else _busy_has_error b in
  let counter :=
    if (_busy_counter b >? 0)%Z then (_busy_counter b - 1)%Z
    else _busy_counter b in
  let b' :=
    {| _busy_counter := counter;
       _busy_base_text := _busy_base_text b;
       _busy_tick := _busy_tick b;
       _busy_has_error := has_error;
       _busy_timer_active :=
         if (counter =? 0)%Z then false else _busy_timer_active b;
       runner_glyph := if (counter =? 0)%Z then "   " else runner_glyph b;
       activity_stage := activity_stage b;
       activity_stage_toolTip := activity_stage_toolTip b;
       status_chip :=
         if (counter =? 0)%Z
         then (if has_error then "Error" else "Ready")
         else status_chip b;
       elidedText := elidedText b |} in
  if (counter =? 0)%Z then _set_activity_stage "Idle" b' else b'.

Definition _animate_busy_state (b : BusyState) : BusyState :=
  if (_busy_counter b <=? 0)%Z then
    {| _busy_counter := _busy_counter b;
       _busy_base_text := _busy_base_text b;
       _busy_tick := _busy_tick b;
       _busy_has_error := _busy_has_error b;
       _busy_timer_active := _busy_timer_active b;
       runner_glyph := "   ";
       activity_stage := activity_stage b;
       activity_stage_toolTip := activity_stage_toolTip b;
       status_chip := "Ready";
       elidedText := elidedText b |}
  else
    {| _busy_counter := _busy_counter b;
       _busy_base_text := _busy_base_text b;
       _busy_tick := _busy_tick b + 1;
       _busy_has_error := _busy_has_error b;
       _busy_timer_active := _busy_timer_active b;
       runner_glyph :=
         nth (Z.to_nat (_busy_tick b mod Z.of_nat (List.length _runner_frames)))
             _runner_frames EmptyString;
       activity_stage := activity_stage b;
       activity_stage_toolTip := activity_stage_toolTip b;
       status_chip := "Running";
       elidedText := elidedText b |}.

(** Calls that reach the tracker: the two job entry points, the job
    completions, and the timer. *)
Inductive busy_call : Type :=
| Enter (stage_text : string)
| Leave (failed : bool)
| Tick.

Definition busy_step (b : BusyState) (c : busy_call) : BusyState :=
  match c with
  | Enter stage_text => _enter_busy stage_text b
  | Leave failed => _leave_busy failed b
  | Tick => _animate_busy_state b
  end.

Definition busy_run (calls : list busy_call) (b : BusyState) : BusyState :=
  fold_left busy_step calls b.

(** *** Stage classifier (lines 814-833) *)

Definition stage_map : list (string * string) :=
  [ ("Loading run:", "Loading runs");
    ("Saved raw AnnData:", "Preparing QC");
    ("Saved QC outputs:", "QC complete");
    ("Running MANA weighted aggregation...", "MANA aggregation");
    ("Saved clustered AnnData:", "Saving clustered data");
    ("Exporting KaroSpace HTML...", "Exporting KaroSpace") ].

(** The first table entry whose token occurs in [line] (the [for] loop). *)
Fixpoint scan_stage_map (table : list (string * string)) (line : string)
  : option string :=
  match table with
  | [] => None
  | (token, stage_text) :: rest =>
      if contains token line then Some stage_text
      else scan_stage_map rest line
  end.

(** The stage text that [_update_stage_from_log] installs for [line],
    if any. *)
Definition classify (line : string) : option string :=
  if startswith "STEP: " line
  then Some (strip (replace_first "STEP: " EmptyString line))
  else scan_stage_map stage_map line.

Definition set_base_text (stage : string) (b : BusyState) : BusyState :=
  {| _busy_counter := _busy_counter b;
     _busy_base_text := stage;
     _busy_tick := _busy_tick b;
     _busy_has_error := _busy_has_error b;
     _busy_timer_active := _busy_timer_active b;
     runner_glyph := runner_glyph b;
     activity_stage := activity_stage b;
     activity_stage_toolTip := activity_stage_toolTip b;
     status_chip := status_chip b;
     elidedText := elidedText b |}.

Definition _update_stage_from_log (line : string) (b : BusyState) : BusyState :=
  match classify line with
  | Some stage_text => _set_activity_stage stage_text (set_base_text stage_text b)
  | None => b
  end.

(** *** Recent projects (lines 32-40, 64-77, 1458-1463, 1486-1501) *)

Record RecentProject : Type := {
  data_dir : string;
  out_dir : string;
  karospace_html : option string;
  last_used : string
}.

(** The uniqueness key of an entry. *)
Definition same_pair (d o : string) (p : RecentProject) : bool :=
  String.eqb (data_dir p) d && String.eqb (out_dir p) o.

(** The main window, as far as the controller logic reads and writes it.
    [process_set] tells that [self.process] holds a process object,
    [current_out_dir] is the text its path was built from,
    [recent_file] is what [_save_recent] last wrote, [recent_list] the
    rows of the list widget; log lines are kept without their
    clock prefix. *)
Record MainWindow : Type := {
  busy : BusyState;
  log_view : list string;
  top_run_btn_enabled : bool;
  process_set : bool;
  _plot_processes : list nat;
  current_out_dir : option string;
  data_dir_edit : string;
  out_dir_edit : string;
  karospace_path_edit : string;
  recent_projects : list RecentProject;
  recent_file : option (list RecentProject);
  recent_list : list RecentProject
}.

Definition with_busy (f : BusyState -> BusyState) (w : MainWindow) : MainWindow :=
  {| busy := f (busy w);
     log_view := log_view w;
     top_run_btn_enabled := top_run_btn_enabled w;
     process_set := process_set w;
     _plot_processes := _plot_processes w;
     current_out_dir := current_out_dir w;
     data_dir_edit := data_dir_edit w;
     out_dir_edit := out_dir_edit w;
     karospace_path_edit := karospace_path_edit w;
     recent_projects := recent_projects w;
     recent_file := recent_file w;
     recent_list := recent_list w |}.

Definition _log (message : string) (w : MainWindow) : MainWindow :=
  {| busy := busy w;
     log_view := (log_view w ++ [message])%list;
     top_run_btn_enabled := top_run_btn_enabled w;
     process_set := process_set w;
     _plot_processes := _plot_processes w;
     current_out_dir := current_out_dir w;
     data_dir_edit := data_dir_edit w;
     out_dir_edit := out_dir_edit w;
     karospace_path_edit := karospace_path_edit w;
     recent_projects := recent_projects w;
     recent_file := recent_file w;
     recent_list := recent_list w |}.

Definition set_top_run_btn (enabled : bool) (w : MainWindow) : MainWindow :=
  {| busy := busy w;
     log_view := log_view w;
     top_run_btn_enabled := enabled;
     process_set := process_set w;
     _plot_processes := _plot_processes w;
     current_out_dir := current_out_dir w;
     data_dir_edit := data_dir_edit w;
     out_dir_edit := out_dir_edit w;
     karospace_path_edit := karospace_path_edit w;
     recent_projects := recent_projects w;
     recent_file := recent_file w;
     recent_list := recent_list w |}.

Definition set_process (running : bool) (w : MainWindow) : MainWindow :=
  {| busy := busy w;
     log_view := log_view w;
     top_run_btn_enabled := top_run_btn_enabled w;
     process_set := running;
     _plot_processes := _plot_processes w;
     current_out_dir := current_out_dir w;
     data_dir_edit := data_dir_edit w;
     out_dir_edit := out_dir_edit w;
     karospace_path_edit := karospace_path_edit w;
     recent_projects := recent_projects w;
     recent_file := recent_file w;
     recent_list := recent_list w |}.

Definition set_plot_processes (procs : list nat) (w : MainWindow) : MainWindow :=
  {| busy := busy w;
     log_view := log_view w;
     top_run_btn_enabled := top_run_btn_enabled w;
     process_set := process_set w;
     _plot_processes := procs;
     current_out_dir := current_out_dir w;
     data_dir_edit := data_dir_edit w;
     out_dir_edit := out_dir_edit w;
     karospace_path_edit := karospace_path_edit w;
     recent_projects := recent_projects w;
     recent_file := recent_file w;
     recent_list := recent_list w |}.

Definition set_current_out_dir (d : option string) (w : MainWindow) : MainWindow :=
  {| busy := busy w;
     log_view := log_view w;
     top_run_btn_enabled := top_run_btn_enabled w;
     process_set := process_set w;
     _plot_processes := _plot_processes w;
     current_out_dir := d;
     data_dir_edit := data_dir_edit w;
     out_dir_edit := out_dir_edit w;
     karospace_path_edit := karospace_path_edit w;
     recent_projects := recent_projects w;
     recent_file := recent_file w;
     recent_list := recent_list w |}.

Definition set_recent (projects : list RecentProject)
  (file : option (list RecentProject)) (rows : list RecentProject)
  (w : MainWindow) : MainWindow :=
  {| busy := busy w;
     log_view := log_view w;
     top_run_btn_enabled := top_run_btn_enabled w;
     process_set := process_set w;
     _plot_processes := _plot_processes w;
     current_out_dir := current_out_dir w;
     data_dir_edit := data_dir_edit w;
     out_dir_edit := out_dir_edit w;
     karospace_path_edit := karospace_path_edit w;
     recent_projects := projects;
     recent_file := file;
     recent_list := rows |}.

(** [_save_recent] writes the whole list. *)
Definition _save_recent (projects : list RecentProject) (w : MainWindow)
  : MainWindow :=
  set_recent (recent_projects w) (Some projects) (recent_list w) w.

(** [_populate_recent]: most recently used first, ties in list order. *)
Definition _populate_recent (w : MainWindow) : MainWindow :=
  set_recent (recent_projects w) (recent_file w)
    (sorted (fun p q => String.leb (last_used q) (last_used p))
            (recent_projects w)) w.

(** [_update_recent]; [now] is the clock reading in ISO format. *)
Definition _update_recent (now : string) (w : MainWindow) : MainWindow :=
  let d := strip (data_dir_edit w) in
  let o := strip (out_dir_edit w) in
  if negb (truthy d) || negb (truthy o) then w
  else
    let html := strip (karospace_path_edit w) in
    let karospace := if truthy html then Some html else None in
    let filtered :=
      filter (fun p => negb (same_pair d o p)) (recent_projects w) in
    let updated :=
      (filtered ++ [ {| data_dir := d; out_dir := o;
                        karospace_html := karospace;
                        last_used := now |} ])%list in
    _populate_recent
      (_save_recent updated
         (set_recent updated (recent_file w) (recent_list w) w)).

(** *** Jobs (lines 979-1019, 1420-1456) *)

Definition ui_bind {A B : Type} (m : ui A) (f : A -> ui B) : ui B :=
  (fix go (m : ui A) : ui B :=
     match m with
     | Done a => f a
     | Exec box k => Exec box (fun pressed => go (k pressed))
     end) m.

(** [_load_outputs] records the directory and refills widgets that the
    controller logic never reads back. *)
Definition _load_outputs (out_dir_text : string) (w : MainWindow) : MainWindow :=
  set_current_out_dir (Some out_dir_text) w.

(** Lines 991-1001: the pipeline job is started. *)
Definition start_pipeline (w : MainWindow) : MainWindow :=
  set_process true
    (set_top_run_btn false
       (with_busy (_enter_busy "Running pipeline")
          (_log "Starting pipeline..." w))).

(** Lines 979-1001 of [_run_pipeline]: overwrite check, then start. *)
Definition run_pipeline_checked (fs : filesystem) (out_dir_path : Path)
  (karospace_path_obj : option Path) (w : MainWindow) : ui MainWindow :=
  ui_bind
    (_confirm_overwrite
       (_collect_existing_pipeline_outputs fs out_dir_path karospace_path_obj)
       "Existing outputs found"
       "Run pipeline and overwrite existing outputs?")
    (fun confirmed =>
       if confirmed then Done (start_pipeline w)
       else Done (_log "Run cancelled by user (existing outputs)." w)).

Fixpoint log_lines (lines : list string) (classify_stage : bool)
  (w : MainWindow) : MainWindow :=
  match lines with
  | [] => w
  | line :: rest =>
      if truthy (strip line) then
        let w1 := _log line w in
        let w2 := if classify_stage
                  then with_busy (_update_stage_from_log line) w1 else w1 in
        log_lines rest classify_stage w2
      else log_lines rest classify_stage w
  end.

(** [output] is the decoded text of [readAllStandardOutput]. *)
Definition _on_process_output (output : string) (w : MainWindow) : MainWindow :=
  if negb (process_set w) then w
  else log_lines (splitlines output) true w.

Definition _on_process_finished (now : string) (exit_code : Z)
  (w : MainWindow) : MainWindow :=
  let w1 := set_top_run_btn true w in
  let w2 := _log ("Pipeline finished (exit code " ++ str_of_int exit_code ++ ").")
                 w1 in
  let w3 := with_busy (_leave_busy (negb (exit_code =? 0)%Z)) w2 in
  let out_dir_text := strip (out_dir_edit w3) in
  if truthy out_dir_text
  then _update_recent now (_load_outputs out_dir_text w3)
  else w3.

(** [_run_visual_process] up to [proc.start()]; [proc] names the new
    process object. *)
Definition _run_visual_process (proc : nat) (output_path : Path)
  (w : MainWindow) : MainWindow :=
  let w1 := _log ("Generating plot: " ++ path_name output_path) w in
  let w2 := with_busy (_enter_busy ("Generating " ++ path_stem output_path)) w1 in
  set_plot_processes (_plot_processes w2 ++ [proc])%list w2.

Definition _on_plot_output (output : string) (w : MainWindow) : MainWindow :=
  log_lines (splitlines output) false w.

(** [xs.remove(x)]: the first occurrence only. *)
Fixpoint remove_first (x : nat) (xs : list nat) : list nat :=
  match xs with
  | [] => []
  | y :: r => if Nat.eqb x y then r else y :: remove_first x r
  end.

Definition _on_finished (proc : nat) (output_path : Path) (exit_code : Z)
  (w : MainWindow) : MainWindow :=
  let w1 := set_plot_processes (remove_first proc (_plot_processes w)) w in
  if negb (exit_code =? 0)%Z then
    with_busy (_leave_busy true)
      (_log ("Plot generation failed: " ++ path_name output_path) w1)
  else
    with_busy (_leave_busy false)
      (_log ("Plot ready: " ++ path_name output_path) w1).

(** Lines 1393-1418 and their three siblings: overwrite check, then the
    plot job is started. *)
Definition generate_plot_checked (fs : filesystem) (proc : nat)
  (output_path : Path) (prompt cancelled : string) (w : MainWindow)
  : ui MainWindow :=
  ui_bind
    (_confirm_overwrite (existing_plot fs output_path)
       "Existing plot found" prompt)
    (fun confirmed =>
       if confirmed then Done (_run_visual_process proc output_path w)
       else Done (_log cancelled w)).

(** The signals of a [QProcess]. *)
Inductive ProcessError : Type :=
| FailedToStart | Crashed | Timedout | ReadError | WriteError | UnknownError.

Inductive qprocess_signal : Type :=
| started
| readyReadStandardOutput (output : string)
| finished (exit_code : Z)
| errorOccurred (error : ProcessError).

(** The slots connected on the pipeline process (lines 999-1000); a
    signal with no slot changes nothing.  [now] is the clock reading at
    delivery. *)
Definition pipeline_slots (w : MainWindow) (delivery : string * qprocess_signal)
  : MainWindow :=
  match delivery with
  | (_, readyReadStandardOutput output) => _on_process_output output w
  | (now, finished exit_code) => _on_process_finished now exit_code w
  | (_, started) => w
  | (_, errorOccurred _) => w
  end.

(** The slots connected on a plot process (lines 1454-1455). *)
Definition plot_slots (proc : nat) (output_path : Path) (w : MainWindow)
  (delivery : string * qprocess_signal) : MainWindow :=
  match delivery with
  | (_, readyReadStandardOutput output) => _on_plot_output output w
  | (_, finished exit_code) => _on_finished proc output_path exit_code w
  | (_, started) => w
  | (_, errorOccurred _) => w
  end.

(** A whole pipeline job: start, then the signals as delivered. *)
Definition pipeline_job (signals : list (string * qprocess_signal))
  (w : MainWindow) : MainWindow :=
  fold_left pipeline_slots signals (start_pipeline w).

(** A whole plot job. *)
Definition plot_job (proc : nat) (output_path : Path)
  (signals : list (string * qprocess_signal)) (w : MainWindow) : MainWindow :=
  fold_left (plot_slots proc output_path) signals
            (_run_visual_process proc output_path w).

(** Number of [finished] signals in a delivery sequence. *)
Definition is_finished (delivery : string * qprocess_signal) : bool :=
  match delivery with
  | (_, finished _) => true
  | _ => false
  end.

Definition completions (signals : list (string * qprocess_signal)) : nat :=
  List.length (filter is_finished signals).

(** What Qt delivers for a program that cannot be started (missing
    executable, no permission): [errorOccurred(FailedToStart)] and no
    [finished]. *)
Definition failed_to_start_signals (now : string)
  : list (string * qprocess_signal) :=
  [ (now, errorOccurred FailedToStart) ].

End App.

(** ** The recent-project file ([app/main.py], lines 26-77) *)

Module RecentStore.
Import PyStr Json App.

(** A JSON file on disk: absent, present with text that [json.loads]
    rejects, or present with a document.  A document written by
    [json.dumps] is read back by [json.loads] as the same value, so a
    file is identified with the value it holds. *)
Inductive json_file : Type :=
| Missing
| Unparsable
| Parsed (payload : json).

(** What can escape [_load_recent]: a value without [get], or a value
    that cannot be iterated. *)
Inductive load_error : Type :=
| Attribute_error
| Type_error.

Inductive attempt (A : Type) : Type :=
| Got (a : A)
| Threw (e : load_error).

Arguments Got {A} a.
Arguments Threw {A} e.

(** An entry as [_load_recent] builds it: the dataclass does not check
    its fields, so each holds whatever the document had; [JNull] is
    [None]. *)
Record StoredProject : Type := {
  stored_data_dir : json;
  stored_out_dir : json;
  stored_karospace_html : json;
  stored_last_used : json
}.

(** [d.get(key, default)] *)
Definition get_default (key : string) (default : json)
  (fields : list (string * json)) : json :=
  match dict_get key fields with
  | Some v => v
  | None => default
  end.

Definition load_item (item : json) : attempt StoredProject :=
  match item with
  | JObject fields =>
      Got {| stored_data_dir := get_default "data_dir" (JStr EmptyString) fields;
             stored_out_dir := get_default "out_dir" (JStr EmptyString) fields;
             stored_karospace_html := get_default "karospace_html" JNull fields;
             stored_last_used := get_default "last_used" (JStr EmptyString) fields |}
  | _ => Threw Attribute_error
  end.

Fixpoint load_items (items : list json) : attempt (list StoredProject) :=
  match items with
  | [] => Got []
  | item :: rest =>
      match load_item item with
      | Threw e => Threw e
      | Got project =>
          match load_items rest with
          | Got projects => Got (project :: projects)
          | Threw e => Threw e
          end
      end
  end.

(** What a [for] loop over the value visits: the items of a list, the
    characters of a string, the keys of an object. *)
Definition iterate (v : json) : attempt (list json) :=
  match v with
  | JList items => Got items
  | JStr s =>
      Got (map (fun c => JStr (String c EmptyString)) (list_ascii_of_string s))
  | JObject fields => Got (map (fun kv => JStr (fst kv)) fields)
  | JNull | JBool _ | JInt _ | JFloat _ _ => Threw Type_error
  end.

(** [recent] is the file at [RECENT_PATH], [legacy] the one at
    [LEGACY_RECENT_PATH]. *)
Definition _load_recent (recent legacy : json_file)
  : attempt (list StoredProject) :=
  let file := match recent with
              | Missing => legacy
              | _ => recent
              end in
  match file with
  | Missing => Got []
  | Unparsable => Got []
  | Parsed (JObject fields) =>
      match iterate (get_default "projects" (JList []) fields) with
      | Got items => load_items items
      | Threw e => Threw e
      end
  | Parsed _ => Threw Attribute_error
  end.

Definition optional_str (s : option string) : json :=
  match s with
  | Some text => JStr text
  | None => JNull
  end.

(** The document that [_save_recent] writes to [RECENT_PATH]. *)
Definition recent_payload (projects : list RecentProject) : json :=
  JObject
    [ ("projects",
       JList (map (fun p =>
                     JObject [ ("data_dir", JStr (data_dir p));
                               ("out_dir", JStr (out_dir p));
                               ("karospace_html", optional_str (karospace_html p));
                               ("last_used", JStr (last_used p)) ])
                  projects)) ].

Definition _save_recent_file (projects : list RecentProject) : json_file :=
  Parsed (recent_payload projects).

(** A typed entry seen as it would be loaded. *)
Definition stored (p : RecentProject) : StoredProject :=
  {| stored_data_dir := JStr (data_dir p);
     stored_out_dir := JStr (out_dir p);
     stored_karospace_html := optional_str (karospace_html p);
     stored_last_used := JStr (last_used p) |}.

End RecentStore.

(** ** The key menus ([app/main.py], lines 1044-1169) *)

Module KeyMenus.
Import PyStr Json Visuals.

(** Truth value of a parsed JSON value. *)
Definition json_truthy (v : json) : bool :=
  match v with
  | JNull => false
  | JBool b => b
  | JInt n => negb (n =? 0)%Z
  | JFloat mantissa _ => negb (mantissa =? 0)%Z
  | JStr s => truthy s
  | JList items => match items with [] => false | _ :: _ => true end
  | JObject fields => match fields with [] => false | _ :: _ => true end
  end.

(** A combo box: its rows as (text, data) and whether it is enabled. *)
Record QComboBox : Type := {
  combo_items : list (string * string);
  combo_enabled : bool
}.

Section Menus.

(** [str(value)] for a value that is not a string. *)
Variable str_other : json -> string.

(** [str(key or "").strip()]; a missing entry is [None]. *)
Definition key_text (key : option json) : string :=
  strip (match key with
         | Some v => if json_truthy v then py_str str_other v else EmptyString
         | None => EmptyString
         end).

(** [if key_text and key_text not in keys: keys.append(key_text)] *)
Definition add_key (keys : list string) (text : string) : list string :=
  if truthy text && negb (mem text keys) then (keys ++ [text])%list else keys.

(** The candidates of one source: a list is taken apart, anything else
    stands alone. *)
Definition source_candidates (source : option json) : list (option json) :=
  match source with
  | Some (JList items) => map Some items
  | _ => [source]
  end.

Definition add_source (keys : list string) (source : option json)
  : list string :=
  fold_left (fun keys key => add_key keys (key_text key))
            (source_candidates source) keys.

(** [payload.get(name)] for every name, in order. *)
Fixpoint ordered_sources (payload : json) (names : list string)
  : result (list (option json)) :=
  match names with
  | [] => Ok []
  | name :: rest =>
      source <- payload_get payload name ;;
      sources <- ordered_sources payload rest ;;
      Ok (source :: sources)
  end.

(** The payload the menus work from: none without a file, the empty
    object when the file does not parse. *)
Definition menu_payload (info : cluster_info) : option json :=
  match info with
  | Absent => None
  | Malformed => Some (JObject [])
  | Loaded payload => Some payload
  end.

Definition menu_keys (names : list string) (info : cluster_info)
  : result (list string) :=
  match menu_payload info with
  | None => Ok []
  | Some payload =>
      sources <- ordered_sources payload names ;;
      Ok (fold_left add_source sources [])
  end.

Definition fill_combo (auto_text : string) (keys : list string) : QComboBox :=
  {| combo_items := (auto_text, EmptyString) :: map (fun key => (key, key)) keys;
     combo_enabled := match keys with [] => false | _ :: _ => true end |}.

Definition spatial_key_names : list string :=
  ["cluster_key"; "compartment_key"; "cluster_keys"; "compartment_keys"].

Definition umap_key_names : list string :=
  ["cluster_key"; "cluster_keys"; "compartment_key"; "compartment_keys"].

Definition _refresh_spatial_keys (info : cluster_info) : result QComboBox :=
  keys <- menu_keys spatial_key_names info ;;
  Ok (fill_combo "Auto (cluster key)" keys).

Definition _refresh_umap_keys (info : cluster_info) : result QComboBox :=
  keys <- menu_keys umap_key_names info ;;
  Ok (fill_combo "Auto (cluster key)" keys).

Definition _refresh_gene_expression_keys (info : cluster_info)
  : result QComboBox :=
  keys <- menu_keys umap_key_names info ;;
  Ok (fill_combo "Auto (cluster key)" keys).

(** Lines 1086-1095: the listed keys, then the primary key put in front
    unless it is listed. *)
Definition compartment_keys (payload : json) : result (list string) :=
  raw_keys <- payload_get payload "compartment_keys" ;;
  let keys :=
    match raw_keys with
    | Some (JList items) =>
        fold_left (fun keys key => add_key keys (strip (py_str str_other key)))
                  items []
    | _ => []
    end in
  primary <- payload_get payload "compartment_key" ;;
  let primary_key := key_text primary in
  Ok (if truthy primary_key && negb (mem primary_key keys)
      then primary_key :: keys else keys).

Definition _refresh_compartment_keys (info : cluster_info) : result QComboBox :=
  keys <- match menu_payload info with
          | None => Ok []
          | Some payload => compartment_keys payload
          end ;;
  Ok (fill_combo "Auto (primary)" keys).

End Menus.

End KeyMenus.

(** ** Key selection of the plot commands ([utils/app_visuals.py],
    lines 74-173) *)

Module PlotCli.
Import PyStr Json Visuals.

(** What a plot command can fail with before it draws: its own
    [ValueError], or what escapes [_infer_default_color]. *)
Inductive plot_error : Type :=
| ValueError (message : string)
| Escaped (e : exn).

Inductive outcome (A : Type) : Type :=
| Fine (a : A)
| Fails (e : plot_error).

Arguments Fine {A} a.
Arguments Fails {A} e.

Definition of_result {A : Type} (r : result A) : outcome A :=
  match r with
  | Ok a => Fine a
  | Raise e => Fails (Escaped e)
  end.

Section KeySelection.

Variable str_other : json -> string.

(** [choice or inferred]: the inference runs only without a choice. *)
Definition choice_or (choice : option string) (inferred : result string)
  : result string :=
  match choice with
  | Some c => if truthy c then Ok c else inferred
  | None => inferred
  end.

(** [generate_umap_plot], up to [color_key]. *)
Definition umap_color_key (obsm_keys columns : list string)
  (info : cluster_info) (color : option string) : outcome string :=
  if negb (mem "X_umap" obsm_keys)
  then Fails (ValueError "UMAP coordinates not found in adata.obsm['X_umap']")
  else of_result
         (choice_or color
            (_infer_default_color str_other columns info "leiden" None)).

(** [generate_compartment_map], up to [color_key]. *)
Definition compartment_color_key (columns : list string)
  (info : cluster_info) (color : option string) : outcome string :=
  of_result
    (choice_or color
       (_infer_default_color str_other columns info "leiden"
          (Some "compartment_keys"))).

(** [generate_spatial_map], up to [color_key] and [groupby_key]. *)
Definition spatial_color_key (columns : list string)
  (info : cluster_info) (color : option string) : outcome string :=
  of_result
    (choice_or color
       (_infer_default_color str_other columns info "leiden"
          (Some "cluster_keys"))).

Definition spatial_groupby_key (columns : list string) : string :=
  let groupby_key := if mem "sample_id" columns then "sample_id" else "run" in
  if negb (mem groupby_key columns)
     && match columns with [] => false | _ :: _ => true end
  then match columns with
       | c :: _ => c
       | [] => groupby_key
       end
  else groupby_key.

(** [generate_gene_expression_dotplot], up to the check of the key. *)
Definition dotplot_groupby_key (columns : list string)
  (info : cluster_info) (groupby : option string) : outcome string :=
  match choice_or groupby
          (_infer_default_color str_other columns info "leiden"
             (Some "cluster_keys")) with
  | Raise e => Fails (Escaped e)
  | Ok groupby_key =>
      if negb (mem groupby_key columns)
      then Fails (ValueError ("Groupby key '" ++ groupby_key
                              ++ "' not found in adata.obs."))
      else Fine groupby_key
  end.

(** [max(1, int(top_n))] *)
Definition dotplot_top_n (top_n : Z) : Z := Z.max 1 top_n.

End KeySelection.

End PlotCli.

(** ** Starting a run and picking a recent project ([app/main.py],
    lines 889-1001, 1021-1029, 1465-1484) *)

Module RunPipeline.
Import PyStr App.

(** The widgets of the run form, as [_run_pipeline] reads them: line
    edits by their text, check boxes by their state, integer spin boxes
    by their value, and combo boxes and float spin boxes by the text
    that [str] gives for their data or value. *)
Record RunForm : Type := {
  run_prefix_edit : string;
  run_search_depth_combo : string;
  sample_id_source_combo : string;
  count_matrix_mode_combo : string;
  n_neighbors_spin : Z;
  n_pcs_spin : Z;
  umap_min_dist_spin : string;
  cluster_graph_mode_combo : string;
  cluster_method_combo : string;
  leiden_res_edit : string;
  louvain_res_edit : string;
  kmeans_clusters_edit : string;
  kmeans_random_state_spin : Z;
  kmeans_n_init_spin : Z;
  tx_max_distance_spin : string;
  tx_nucleus_distance_key_edit : string;
  tx_allowed_categories_edit : string;
  mana_check : bool;
  mana_layers : Z;
  mana_hop_decay : string;
  mana_kernel : string;
  mana_rep_mode : string;
  mana_custom_rep_edit : string;
  karospace_check : bool
}.

(** [text.strip() or default] *)
Definition or_default (text default : string) : string :=
  if truthy (strip text) then strip text else default.

Definition set_karospace_path_edit (text : string) (w : MainWindow)
  : MainWindow :=
  {| busy := busy w;
     log_view := log_view w;
     top_run_btn_enabled := top_run_btn_enabled w;
     process_set := process_set w;
     _plot_processes := _plot_processes w;
     current_out_dir := current_out_dir w;
     data_dir_edit := data_dir_edit w;
     out_dir_edit := out_dir_edit w;
     karospace_path_edit := text;
     recent_projects := recent_projects w;
     recent_file := recent_file w;
     recent_list := recent_list w |}.

Definition set_dir_edits (data out : string) (w : MainWindow) : MainWindow :=
  {| busy := busy w;
     log_view := log_view w;
     top_run_btn_enabled := top_run_btn_enabled w;
     process_set := process_set w;
     _plot_processes := _plot_processes w;
     current_out_dir := current_out_dir w;
     data_dir_edit := data;
     out_dir_edit := out;
     karospace_path_edit := karospace_path_edit w;
     recent_projects := recent_projects w;
     recent_file := recent_file w;
     recent_list := recent_list w |}.

(** How a call of [_run_pipeline] ends: with a warning box and nothing
    else, with the run declined at the overwrite prompt, or with the
    process started on an argument vector. *)
Inductive run_result : Type :=
| Warned (title message : string)
| Declined (w : MainWindow)
| Started (args : list string) (w : MainWindow).

Section Run.

(** [sys.executable], the text of the script path, and
    [Path(text).expanduser().resolve()]. *)
Variable sys_executable : string.
Variable script : string.
Variable resolve : string -> Path.

(** Lines 899-935. *)
Definition base_args (form : RunForm) (data_dir out_dir : string)
  : list string :=
  [ sys_executable; "-u"; script;
    "--data-dir"; data_dir;
    "--out-dir"; out_dir;
    "--run-prefix"; or_default (run_prefix_edit form) "output-";
    "--run-search-depth"; run_search_depth_combo form;
    "--sample-id-source"; sample_id_source_combo form;
    "--count-matrix-mode"; count_matrix_mode_combo form;
    "--n-neighbors"; str_of_int (n_neighbors_spin form);
    "--n-pcs"; str_of_int (n_pcs_spin form);
    "--umap-min-dist"; umap_min_dist_spin form;
    "--cluster-graph-mode"; cluster_graph_mode_combo form;
    "--cluster-method"; cluster_method_combo form;
    "--leiden-resolutions"; or_default (leiden_res_edit form) "0.1,0.5,1,1.5,2";
    "--louvain-resolutions"; or_default (louvain_res_edit form) "0.5,1.0";
    "--kmeans-clusters"; or_default (kmeans_clusters_edit form) "8,12";
    "--kmeans-random-state"; str_of_int (kmeans_random_state_spin form);
    "--kmeans-n-init"; str_of_int (kmeans_n_init_spin form) ].

(** Lines 937-945. *)
Definition tx_args (form : RunForm) : list string :=
  if String.eqb (count_matrix_mode_combo form) "nucleus_or_distance" then
    [ "--tx-max-distance-um"; tx_max_distance_spin form;
      "--tx-nucleus-distance-key";
      or_default (tx_nucleus_distance_key_edit form) "nucleus_distance";
      "--tx-allowed-categories";
      or_default (tx_allowed_categories_edit form)
                 "predesigned_gene,custom_gene" ]
  else [].

(** Lines 947-969; [None] when the custom key is asked for and blank. *)
Definition mana_args (form : RunForm) : option (list string) :=
  if mana_check form then
    let args :=
      [ "--mana-aggregate";
        "--mana-n-layers"; str_of_int (mana_layers form);
        "--mana-hop-decay"; mana_hop_decay form;
        "--mana-distance-kernel"; mana_kernel form;
        "--mana-representation-mode"; mana_rep_mode form ] in
    if String.eqb (mana_rep_mode form) "custom" then
      if truthy (strip (mana_custom_rep_edit form))
      then Some (args ++ ["--mana-use-rep"; strip (mana_custom_rep_edit form)])%list
      else None
    else Some args
  else Some [].

(** Lines 971-977: the export path, the window with its path field
    filled in when it was blank, and the two arguments. *)
Definition karospace_args (form : RunForm) (out_dir_path : Path)
  (w : MainWindow) : option Path * MainWindow * list string :=
  if karospace_check form then
    let typed := strip (karospace_path_edit w) in
    let karospace_path :=
      if truthy typed then typed
      else path_str (out_dir_path // "karospace.html") in
    let w' := if truthy typed then w
              else set_karospace_path_edit karospace_path w in
    (Some (resolve karospace_path), w', ["--karospace-html"; karospace_path])
  else (None, w, []).

Definition _run_pipeline (form : RunForm) (fs : filesystem) (w : MainWindow)
  : ui run_result :=
  let data_dir := strip (data_dir_edit w) in
  let out_dir := strip (out_dir_edit w) in
  if negb (truthy data_dir) || negb (truthy out_dir) then
    Done (Warned "Missing paths" "Please set data and output directories.")
  else
    let out_dir_path := resolve out_dir in
    match mana_args form with
    | None =>
        Done (Warned "Missing custom representation key"
                "Please provide a custom obsm key for MANA representation.")
    | Some mana =>
        let '(karospace_path_obj, w1, karospace) :=
          karospace_args form out_dir_path w in
        let args :=
          (base_args form data_dir out_dir ++ tx_args form ++ mana
           ++ karospace)%list in
        ui_bind
          (_confirm_overwrite
             (_collect_existing_pipeline_outputs fs out_dir_path
                karospace_path_obj)
             "Existing outputs found"
             "Run pipeline and overwrite existing outputs?")
          (fun confirmed =>
             if confirmed then Done (Started args (start_pipeline w1))
             else Done (Declined
                          (_log "Run cancelled by user (existing outputs)." w1)))
    end.

End Run.

(** [_on_recent_selected] with the selected project, if any. *)
Definition _on_recent_selected (selected : option RecentProject)
  (w : MainWindow) : MainWindow :=
  match selected with
  | None => w
  | Some project =>
      let w1 := set_dir_edits (data_dir project) (out_dir project) w in
      match karospace_html project with
      | Some html => if truthy html then set_karospace_path_edit html w1 else w1
      | None => w1
      end
  end.

(** [_load_selected_recent] *)
Definition _load_selected_recent (selected : option RecentProject)
  (w : MainWindow) : MainWindow :=
  match selected with
  | None => w
  | Some project =>
      _load_outputs (out_dir project) (_on_recent_selected selected w)
  end.


End RunPipeline.

(** ** The theme ([app/main.py], lines 835-887) *)

Module Theme.
Import PyStr.

(** [Qt.ColorScheme] as reported by the style hints. *)
Inductive ColorScheme : Type :=
| SchemeUnknown
| SchemeLight
| SchemeDark.

(** What [_detect_system_theme] looks at: whether an application object
    exists, whether this Qt knows colour schemes, the scheme reported,
    and the lightness of the window colour. *)
Record SystemLook : Type := {
  app_present : bool;
  has_color_scheme : bool;
  color_scheme : ColorScheme;
  window_lightness : Z
}.

Definition _detect_system_theme (look : SystemLook) : string :=
  if negb (app_present look) then "light"
  else
    match has_color_scheme look, color_scheme look with
    | true, SchemeDark => "dark"
    | true, SchemeLight => "light"
    | _, _ => if (window_lightness look <? 128)%Z then "dark" else "light"
    end.

(** The theme fields of the window: the mode, the manual override, the
    style sheet in force (named by the mode of its file), the toggle
    button, and the log lines written. *)
Record ThemeState : Type := {
  _theme_mode : string;
  _manual_theme_override : bool;
  style_sheet : option string;
  toggle_checked : bool;
  toggle_text : string;
  theme_log : list string
}.

(** The files [theme_dark.qss] and [theme_light.qss]: which exist. *)
Record ThemeFiles : Type := {
  dark_exists : bool;
  light_exists : bool
}.

Definition _apply_theme (look : SystemLook) (files : ThemeFiles)
  (mode : option string) (st : ThemeState) : ThemeState :=
  let theme_mode :=
    match mode with
    | Some m => if String.eqb m "light" || String.eqb m "dark"
                then m else _theme_mode st
    | None => _theme_mode st
    end in
  let is_dark := String.eqb theme_mode "dark" in
  let exists_ := if is_dark then dark_exists files else light_exists files in
  if negb (app_present look) || negb exists_ then
    {| _theme_mode := theme_mode;
       _manual_theme_override := _manual_theme_override st;
       style_sheet := style_sheet st;
       toggle_checked := toggle_checked st;
       toggle_text := toggle_text st;
       theme_log := theme_log st |}
  else
    {| _theme_mode := theme_mode;
       _manual_theme_override := _manual_theme_override st;
       style_sheet := Some (if is_dark then "dark" else "light");
       toggle_checked := is_dark;
       toggle_text := if is_dark then "Light" else "Dark";
       theme_log :=
         (theme_log st ++ [("Theme set: " ++ theme_mode)%string])%list |}.

(** The button has taken the state [checked] when its [toggled] signal
    reaches [_toggle_theme]. *)
Definition _toggle_theme (look : SystemLook) (files : ThemeFiles)
  (checked : bool) (st : ThemeState) : ThemeState :=
  let mode := if checked then "dark" else "light" in
  _apply_theme look files (Some mode)
    {| _theme_mode := mode;
       _manual_theme_override := true;
       style_sheet := style_sheet st;
       toggle_checked := checked;
       toggle_text := toggle_text st;
       theme_log := theme_log st |}.

Definition _on_system_color_scheme_changed (look : SystemLook)
  (files : ThemeFiles) (st : ThemeState) : ThemeState :=
  if _manual_theme_override st then st
  else _apply_theme look files (Some (_detect_system_theme look)) st.

(** What reaches the theme logic: a click on the toggle button, or a
    change of the system colour scheme, which is then looked up. *)
Inductive theme_event : Type :=
| Toggled (checked : bool)
| SystemChanged (look : SystemLook).

Definition theme_step (app : SystemLook) (files : ThemeFiles)
  (st : ThemeState) (e : theme_event) : ThemeState :=
  match e with
  | Toggled checked => _toggle_theme app files checked st
  | SystemChanged look => _on_system_color_scheme_changed look files st
  end.

Definition theme_run (app : SystemLook) (files : ThemeFiles)
  (events : list theme_event) (st : ThemeState) : ThemeState :=
  fold_left (theme_step app files) events st.

Definition is_system_change (e : theme_event) : bool :=
  match e with
  | SystemChanged _ => true
  | Toggled _ => false
  end.

End Theme.

(** * Vocabulary of the statements *)

Import PyStr Json Visuals App.

(** The counter stays above zero before each of the calls. *)
Definition running_before (calls : list busy_call) (b : BusyState) : Prop :=
  forall pre c post,
    calls = (pre ++ c :: post)%list ->
    (0 < _busy_counter (busy_run pre b))%Z.

(** What the indicator shows once the jobs have drained with an error. *)
Definition drained_with_error (b : BusyState) : Prop :=
  _busy_counter b = 0%Z ->
  status_chip b = "Error"
  /\ activity_stage_toolTip b = "Idle"
  /\ _busy_timer_active b = false.

(** The four named plot images of the artifact set as the specification
    lists them: spatial, UMAP, compartments and gene-expression dotplot. *)
Definition spec_named_plot_images (out_dir : Path) : list Path :=
  [ out_dir // "plots" // "spatial.png";
    out_dir // "plots" // "umap.png";
    out_dir // "plots" // "compartments.png";
    gene_expression_dotplot_path out_dir ].

(** The optional extra path as a list. *)
Definition extra_paths (extra : option Path) : list Path :=
  match extra with
  | Some kp => [kp]
  | None => []
  end.

(** A window right after start-up, with the given texts in the three
    path fields and the given registry. *)
Definition window_at_startup (elide : string -> string)
  (data out karospace : string) (recent : list RecentProject) : MainWindow :=
  _populate_recent
    {| busy := initial_busy elide;
       log_view := [];
       top_run_btn_enabled := true;
       process_set := false;
       _plot_processes := [];
       current_out_dir := None;
       data_dir_edit := data;
       out_dir_edit := out;
       karospace_path_edit := karospace;
       recent_projects := recent;
       recent_file := None;
       recent_list := [] |}.

(** [tok] occurs somewhere in [line]. *)
Definition occurs (tok line : string) : Prop :=
  exists pre post : string, line = pre ++ tok ++ post.

(** [entry] is the first row of [table] whose token occurs in [line]. *)
Definition first_match (table : list (string * string)) (line : string)
  (token label : string) : Prop :=
  exists before after : list (string * string),
    table = (before ++ (token, label) :: after)%list
    /\ occurs token line
    /\ forall t l, In (t, l) before -> ~ occurs t line.

(** The entry that an upsert writes. *)
Definition upserted_entry (now : string) (w : MainWindow) : RecentProject :=
  {| data_dir := strip (data_dir_edit w);
     out_dir := strip (out_dir_edit w);
     karospace_html :=
       if truthy (strip (karospace_path_edit w))
       then Some (strip (karospace_path_edit w)) else None;
     last_used := now |}.

(** The entries of [projects] filed under the pair of the window's two
    directory fields, and the others. *)
Definition with_pair (w : MainWindow) (projects : list RecentProject)
  : list RecentProject :=
  filter (same_pair (strip (data_dir_edit w)) (strip (out_dir_edit w))) projects.

Definition without_pair (w : MainWindow) (projects : list RecentProject)
  : list RecentProject :=
  filter (fun p => negb (same_pair (strip (data_dir_edit w))
                                   (strip (out_dir_edit w)) p)) projects.

(** A metadata entry that is already trimmed and not blank. *)
Definition clean (s : string) : Prop :=
  strip s = s /\ truthy s = true.

(** The payload is one on which [_infer_default_color] raises nothing:
    no file, unreadable JSON, or a JSON object. *)
Definition well_formed (info : cluster_info) : Prop :=
  match info with
  | Absent | Malformed => True
  | Loaded (JObject _) => True
  | Loaded _ => False
  end.

(** Candidate collection as the specification words it: the singular
    form of a plural field name is consulted only when the plural field
    yields nothing. *)
Definition spec_preferred_candidates (str_other : json -> string)
  (payload : json) (pk : string) : result (list string) :=
  v <- payload_get payload pk ;;
  match _to_candidates str_other v with
  | [] =>
      if endswith "s" pk then
        v' <- payload_get payload (drop_last pk) ;;
        Ok (_to_candidates str_other v')
      else Ok []
  | candidates => Ok candidates
  end.

(** The counter after one completion. *)
Definition decremented (counter : Z) : Z :=
  if (counter >? 0)%Z then (counter - 1)%Z else counter.

(** The timer runs exactly while jobs are outstanding, and the status
    chip reads Running then and Ready or Error otherwise. *)
Definition busy_consistent (b : BusyState) : Prop :=
  (0 <= _busy_counter b)%Z
  /\ _busy_timer_active b = (_busy_counter b >? 0)%Z
  /\ ((0 < _busy_counter b)%Z -> status_chip b = "Running")
  /\ (_busy_counter b = 0%Z ->
      status_chip b = "Ready" \/ status_chip b = "Error").

(** A completion that reports a failure. *)
Definition failed_leave (c : busy_call) : bool :=
  match c with
  | Leave true => true
  | _ => false
  end.


(** The stage labels announced by the non-blank lines of a chunk of
    output, in order. *)
Definition announced_stages (lines : list string) : list string :=
  flat_map (fun line =>
              if truthy (strip line)
              then match classify line with
                   | Some stage_text => [stage_text]
                   | None => []
                   end
              else []) lines.

(** The non-blank lines, which are the ones logged. *)
Definition nonblank_lines (lines : list string) : list string :=
  filter (fun line => truthy (strip line)) lines.

Import RecentStore.

(** A document from which [_load_recent] builds a list: an object whose
    [projects] entry, when present, is a list of objects. *)
Definition well_formed_registry (payload : json) : Prop :=
  exists fields,
    payload = JObject fields
    /\ (dict_get "projects" fields = None
        \/ exists items,
            dict_get "projects" fields = Some (JList items)
            /\ Forall (fun item => exists f, item = JObject f) items).

Import KeyMenus.

(** A menu filled from [keys]: the automatic row first, then one row per
    key carrying the key as its data; enabled when there is a key; the
    keys are distinct and none is blank. *)
Definition menu_of (auto_text : string) (keys : list string)
  (combo : QComboBox) : Prop :=
  combo_items combo = (auto_text, EmptyString) :: map (fun key => (key, key)) keys
  /\ combo_enabled combo = negb (Nat.eqb (List.length keys) 0)
  /\ NoDup keys
  /\ (forall key, In key keys -> truthy key = true).

(** [k] is the text of a candidate of one of the sources. *)
Definition offered (str_other : json -> string) (sources : list (option json)) (k : string) : Prop :=
  truthy k = true
  /\ exists source key,
      In source sources
      /\ In key (source_candidates source)
      /\ key_text str_other key = k.

Import PlotCli.

Import RunPipeline.

Import Theme.

(** * Properties *)

(** ** Busy tracker *)

Lemma leave_counter (failed : bool) (b : BusyState) :
  _busy_counter (_leave_busy failed b)
  = if (_busy_counter b >? 0)%Z then (_busy_counter b - 1)%Z
    else _busy_counter b.
Proof.
  unfold _leave_busy.
  destruct (_busy_counter b >? 0)%Z;
    match goal with |- context [(?c =? 0)%Z] => destruct (c =? 0)%Z end;
    reflexivity.
Qed.

Lemma enter_counter (stage_text : string) (b : BusyState) :
  _busy_counter (_enter_busy stage_text b) = (_busy_counter b + 1)%Z.
Proof. reflexivity. Qed.

Lemma tick_counter (b : BusyState) :
  _busy_counter (_animate_busy_state b) = _busy_counter b.
Proof.
  unfold _animate_busy_state.
  destruct (_busy_counter b <=? 0)%Z; reflexivity.
Qed.

Lemma step_nonneg (b : BusyState) (c : busy_call) :
  (0 <= _busy_counter b)%Z -> (0 <= _busy_counter (busy_step b c))%Z.
Proof.
  intros H. destruct c as [stage_text | failed | ]; cbn [busy_step].
  - rewrite enter_counter. lia.
  - rewrite leave_counter.
    destruct (Z.gtb_spec (_busy_counter b) 0); lia.
  - rewrite tick_counter. exact H.
Qed.

Lemma run_nonneg (calls : list busy_call) :
  forall b, (0 <= _busy_counter b)%Z ->
            (0 <= _busy_counter (busy_run calls b))%Z.
Proof.
  unfold busy_run.
  induction calls as [| c calls IH]; intros b H; simpl.
  - exact H.
  - apply IH. apply step_nonneg. exact H.
Qed.

(** C5. Whatever the order of enter, leave and timer calls, also with
    more leaves than enters, the active job counter never becomes
    negative: from the start-up state, and from any state with a
    non-negative counter.  One leave lowers the counter by exactly one
    when it is positive and leaves it alone otherwise. *)
Theorem C5_counter_never_negative :
  (forall (elide : string -> string) (calls : list busy_call),
      (0 <= _busy_counter (busy_run calls (initial_busy elide)))%Z)
  /\ (forall (b : BusyState) (calls : list busy_call),
         (0 <= _busy_counter b)%Z ->
         (0 <= _busy_counter (busy_run calls b))%Z)
  /\ (forall (failed : bool) (b : BusyState),
         _busy_counter (_leave_busy failed b)
         = if (_busy_counter b >? 0)%Z then (_busy_counter b - 1)%Z
           else _busy_counter b).
Proof.
  split; [| split].
  - intros elide calls. apply run_nonneg. simpl. lia.
  - intros b calls H. apply run_nonneg. exact H.
  - intros failed b. apply leave_counter.
Qed.

Lemma C5_counter_never_negative_witness :
  (0 <= _busy_counter
          (busy_run [Leave false; Leave true; Enter "A"; Leave false; Leave false]
                    (initial_busy (fun s => s))))%Z.
Proof.
  apply (proj1 (proj2 C5_counter_never_negative)). simpl. lia.
Defined.

Lemma step_keeps_error (b : BusyState) (c : busy_call) :
  (0 < _busy_counter b)%Z ->
  _busy_has_error b = true ->
  _busy_has_error (busy_step b c) = true
  /\ drained_with_error (busy_step b c).
Proof.
  intros Hpos Herr. unfold drained_with_error.
  destruct c as [stage_text | failed | ]; simpl.
  - unfold _enter_busy. simpl.
    destruct (Z.eqb_spec (_busy_counter b) 0); [lia |].
    split; [exact Herr | intros; lia].
  - unfold _leave_busy. rewrite Herr.
    destruct (Z.gtb_spec (_busy_counter b) 0); [| lia].
    destruct (Z.eqb_spec (_busy_counter b - 1) 0); simpl;
      destruct failed; simpl; auto; split; auto; intros; lia.
  - unfold _animate_busy_state.
    destruct (Z.leb_spec (_busy_counter b) 0); [lia |].
    simpl. split; [exact Herr | intros; lia].
Qed.

Lemma run_keeps_error (calls : list busy_call) :
  forall b,
    _busy_has_error b = true ->
    drained_with_error b ->
    running_before calls b ->
    _busy_has_error (busy_run calls b) = true
    /\ drained_with_error (busy_run calls b).
Proof.
  induction calls as [| c calls IH]; intros b Herr Hdr Hrun.
  - split; assumption.
  - assert (Hpos : (0 < _busy_counter b)%Z)
      by exact (Hrun [] c calls eq_refl).
    destruct (step_keeps_error b c Hpos Herr) as [Herr' Hdr'].
    apply (IH (busy_step b c) Herr' Hdr').
    intros pre c' post E.
    exact (Hrun (c :: pre) c' post (f_equal (cons c) E)).
Qed.

Lemma leave_failed_sets_error (b : BusyState) :
  _busy_has_error (_leave_busy true b) = true
  /\ drained_with_error (_leave_busy true b).
Proof.
  unfold drained_with_error, _leave_busy.
  match goal with |- context [(?c =? 0)%Z] => destruct (Z.eqb_spec c 0) end;
    simpl; split; auto; intros; contradiction.
Qed.

(** C4. Once [leave(failed=true)] has been seen with the counter above
    zero, the error flag stays set for as long as the counter has not
    come back to zero, whatever enter, leave(failed=false) or timer calls
    follow; and when the counter does reach zero the indicator shows
    Error over the Idle label.  In particular enter, enter,
    leave(failed=true), leave(failed=false) ends with counter zero,
    label Idle and status Error. *)
Theorem C4_sticky_error :
  (forall (b : BusyState) (calls : list busy_call),
      (0 < _busy_counter b)%Z ->
      running_before calls (_leave_busy true b) ->
      let b' := busy_run calls (_leave_busy true b) in
      _busy_has_error b' = true
      /\ (_busy_counter b' = 0%Z ->
          status_chip b' = "Error"
          /\ activity_stage_toolTip b' = "Idle"
          /\ _busy_timer_active b' = false))
  /\ (forall elide : string -> string,
         let b' := busy_run [Enter "A"; Enter "B"; Leave true; Leave false]
                            (initial_busy elide) in
         _busy_counter b' = 0%Z
         /\ _busy_has_error b' = true
         /\ status_chip b' = "Error"
         /\ activity_stage_toolTip b' = "Idle"
         /\ activity_stage b' = elide "Idle"
         /\ _busy_timer_active b' = false).
Proof.
  split.
  - intros b calls Hpos Hrun.
    destruct (leave_failed_sets_error b) as [Herr Hdr].
    exact (run_keeps_error calls _ Herr Hdr Hrun).
  - intros elide. cbv. repeat split.
Qed.

Lemma C4_sticky_error_witness :
  let b := busy_run [Enter "A"; Enter "B"; Enter "C"] (initial_busy (fun s => s)) in
  let b' := busy_run [Leave false; Leave false] (_leave_busy true b) in
  _busy_has_error b' = true
  /\ (_busy_counter b' = 0%Z ->
      status_chip b' = "Error"
      /\ activity_stage_toolTip b' = "Idle"
      /\ _busy_timer_active b' = false).
Proof.
  apply (proj1 C4_sticky_error
           (busy_run [Enter "A"; Enter "B"; Enter "C"] (initial_busy (fun s => s)))
           [Leave false; Leave false]).
  - vm_compute. reflexivity.
  - intros pre c post E.
    destruct pre as [| c1 [| c2 [| c3 pre]]]; simpl in E.
    + vm_compute. reflexivity.
    + injection E as E1 _. subst c1. vm_compute. reflexivity.
    + discriminate E.
    + discriminate E.
Defined.

(** ** Output discovery and overwrite confirmation *)

Lemma filter_none {A : Type} (f : A -> bool) (l : list A) :
  (forall x, In x l -> f x = false) -> filter f l = [].
Proof.
  induction l as [| a l IH]; intros H; simpl.
  - reflexivity.
  - rewrite (H a (or_introl eq_refl)). apply IH.
    intros x Hx. apply H. right. exact Hx.
Qed.

Lemma filter_all {A : Type} (f : A -> bool) (l : list A) :
  (forall x, In x l -> f x = true) -> filter f l = l.
Proof.
  induction l as [| a l IH]; intros H; simpl.
  - reflexivity.
  - rewrite (H a (or_introl eq_refl)). f_equal. apply IH.
    intros x Hx. apply H. right. exact Hx.
Qed.

Lemma dotplot_not_candidate (out_dir : Path) :
  ~ In (gene_expression_dotplot_path out_dir)
       (pipeline_output_candidates out_dir).
Proof.
  unfold gene_expression_dotplot_path, pipeline_output_candidates, joinpath.
  intros H. simpl in H.
  repeat match goal with
         | H : _ \/ _ |- _ => destruct H as [H | H]
         | H : False |- _ => contradiction
         | H : (_ ++ [_])%list = (_ ++ [_])%list |- _ =>
             apply app_inj_tail in H; destruct H as [_ H]; discriminate H
         end.
Qed.

(** C2, as the code has it.  [_collect_existing_pipeline_outputs] returns,
    in order, those of nine fixed paths under the output directory (raw
    and clustered data, cluster-info metadata, marker table, two QC
    summary tables, and the spatial, UMAP and compartments images),
    followed by the extra path when one is given, that exist: a path is
    returned exactly when it is one of these and exists; nothing is
    returned when none exists; all nine and the extra path are returned
    when all exist.  The gene-expression dotplot is not among the nine. *)
Theorem C2_existing_outputs :
  forall (fs : filesystem) (out_dir : Path) (extra : option Path),
    let expected := (pipeline_output_candidates out_dir ++ extra_paths extra)%list in
    List.length (pipeline_output_candidates out_dir) = 9%nat
    /\ (forall p, In p (_collect_existing_pipeline_outputs fs out_dir extra)
                  <-> In p expected /\ fs p = true)
    /\ ((forall p, In p expected -> fs p = false) ->
        _collect_existing_pipeline_outputs fs out_dir extra = [])
    /\ ((forall p, In p expected -> fs p = true) ->
        _collect_existing_pipeline_outputs fs out_dir extra = expected)
    /\ ~ In (gene_expression_dotplot_path out_dir)
            (pipeline_output_candidates out_dir).
Proof.
  intros fs out_dir extra expected.
  assert (E : _collect_existing_pipeline_outputs fs out_dir extra
              = filter fs expected)
    by (destruct extra; reflexivity).
  rewrite E.
  split; [reflexivity |].
  split; [intros p; apply filter_In |].
  split; [apply filter_none |].
  split; [apply filter_all | apply dotplot_not_candidate].
Qed.

Lemma C2_existing_outputs_witness :
  _collect_existing_pipeline_outputs (fun _ => true) ["out"] (Some ["k.html"])
  = (pipeline_output_candidates ["out"] ++ [["k.html"]])%list.
Proof.
  apply (proj1 (proj2 (proj2 (proj2
           (C2_existing_outputs (fun _ => true) ["out"] (Some ["k.html"])))))).
  intros p _. reflexivity.
Defined.

(** C2 as stated fails: with only the gene-expression dotplot on disk,
    one of the four named plot images exists and yet nothing is
    returned. *)
Lemma C2_dotplot_not_collected :
  let fs : filesystem :=
    fun p => path_eqb p (gene_expression_dotplot_path ["out"]) in
  In (gene_expression_dotplot_path ["out"]) (spec_named_plot_images ["out"])
  /\ fs (gene_expression_dotplot_path ["out"]) = true
  /\ _collect_existing_pipeline_outputs fs ["out"] None = [].
Proof.
  split; [| split].
  - simpl. right. right. right. left. reflexivity.
  - vm_compute. reflexivity.
  - vm_compute. reflexivity.
Qed.

(** C10. With no existing path, [_confirm_overwrite] returns true at
    once and shows no dialog, whoever the user is; so a pipeline run with
    no existing output and a plot generation with no existing image
    start their job without any prompt. *)
Theorem C10_no_prompt_when_nothing_exists :
  (forall title prompt : string,
      _confirm_overwrite [] title prompt = Done true)
  /\ (forall (user : QMessageBox -> StandardButton) (title prompt : string),
         run_ui user (_confirm_overwrite [] title prompt) = (true, []))
  /\ (forall (user : QMessageBox -> StandardButton) (fs : filesystem)
             (out_dir : Path) (extra : option Path) (w : MainWindow),
         _collect_existing_pipeline_outputs fs out_dir extra = [] ->
         run_ui user (run_pipeline_checked fs out_dir extra w)
         = (start_pipeline w, []))
  /\ (forall (user : QMessageBox -> StandardButton) (fs : filesystem)
             (proc : nat) (output_path : Path) (prompt cancelled : string)
             (w : MainWindow),
         fs output_path = false ->
         run_ui user (generate_plot_checked fs proc output_path prompt cancelled w)
         = (_run_visual_process proc output_path w, [])).
Proof.
  repeat split.
  - intros user fs out_dir extra w H.
    unfold run_pipeline_checked. rewrite H. reflexivity.
  - intros user fs proc output_path prompt cancelled w H.
    unfold generate_plot_checked, existing_plot. rewrite H. reflexivity.
Qed.

Lemma C10_no_prompt_when_nothing_exists_witness :
  let w := window_at_startup (fun s => s) "data" "out" "" [] in
  run_ui (fun _ => No) (run_pipeline_checked (fun _ => false) ["out"] None w)
  = (start_pipeline w, []).
Proof.
  intros w.
  apply (proj1 (proj2 (proj2 C10_no_prompt_when_nothing_exists))).
  reflexivity.
Defined.

(** ** Strings *)

Lemma startswith_app (p r : string) : startswith p (p ++ r) = true.
Proof.
  induction p as [| a p IH]; simpl.
  - reflexivity.
  - rewrite Ascii.eqb_refl. exact IH.
Qed.

Lemma startswith_inv (p : string) :
  forall s, startswith p s = true -> exists r, s = p ++ r.
Proof.
  induction p as [| a p IH]; intros s H.
  - exists s. reflexivity.
  - destruct s as [| b s]; simpl in H; [discriminate |].
    apply andb_true_iff in H. destruct H as [Hab Hps].
    apply Ascii.eqb_eq in Hab. subst b.
    destruct (IH s Hps) as [r ->]. exists r. reflexivity.
Qed.

Lemma drop_length_app (p r : string) : drop (String.length p) (p ++ r) = r.
Proof.
  induction p as [| a p IH]; simpl.
  - destruct r; reflexivity.
  - exact IH.
Qed.

Lemma replace_first_prefix (old new r : string) :
  replace_first old new (old ++ r) = new ++ r.
Proof.
  destruct (old ++ r) as [| c t] eqn:E; simpl;
    rewrite <- E, startswith_app, drop_length_app; reflexivity.
Qed.

Lemma append_assoc (a b c : string) : (a ++ b) ++ c = a ++ (b ++ c).
Proof.
  induction a as [| x a IH]; simpl; [reflexivity | now rewrite IH].
Qed.

Lemma contains_occurs (tok : string) :
  forall line, contains tok line = true <-> occurs tok line.
Proof.
  induction line as [| c line IH]; simpl.
  - rewrite orb_false_r. split.
    + intros H. apply startswith_inv in H. destruct H as [r E].
      exists EmptyString, r. exact E.
    + intros [pre [post E]].
      destruct pre; simpl in E.
      * rewrite E. apply startswith_app.
      * discriminate E.
  - rewrite orb_true_iff, IH. split.
    + intros [H | [pre [post E]]].
      * apply startswith_inv in H. destruct H as [r E].
        exists EmptyString, r. exact E.
      * exists (String c pre), post. simpl. now rewrite E.
    + intros [pre [post E]].
      destruct pre as [| d pre]; simpl in E.
      * left. rewrite E. apply startswith_app.
      * right. injection E as _ E. exists pre, post. exact E.
Qed.

Lemma not_contains_occurs (tok line : string) :
  contains tok line = false <-> ~ occurs tok line.
Proof.
  rewrite <- contains_occurs. destruct (contains tok line); split; intros H.
  - discriminate H.
  - exfalso. now apply H.
  - intros H'. discriminate H'.
  - reflexivity.
Qed.

(** ** Stage classifier *)

Lemma scan_stage_map_some (table : list (string * string)) (line label : string) :
  scan_stage_map table line = Some label
  <-> exists token, first_match table line token label.
Proof.
  induction table as [| [t l] table IH]; simpl.
  - split; [discriminate |].
    intros [token [before [after [E _]]]]. destruct before; discriminate E.
  - destruct (contains t line) eqn:Ht.
    + split.
      * intros H. injection H as <-. exists t, [], table.
        split; [reflexivity |]. split; [now apply contains_occurs |].
        intros ? ? [].
      * intros [token [before [after [E [Hocc Hno]]]]].
        destruct before as [| [t' l'] before]; simpl in E.
        -- injection E as _ <-. reflexivity.
        -- injection E as <- <- _. exfalso.
           apply (Hno t l (or_introl eq_refl)). now apply contains_occurs.
    + rewrite IH. split.
      * intros [token [before [after [E [Hocc Hno]]]]].
        exists token, ((t, l) :: before), after.
        split; [simpl; now rewrite E |]. split; [exact Hocc |].
        intros t' l' [Hin | Hin].
        -- injection Hin as <- <-. now apply not_contains_occurs.
        -- now apply (Hno t' l').
      * intros [token [before [after [E [Hocc Hno]]]]].
        destruct before as [| [t' l'] before]; simpl in E.
        -- injection E as <- <- _. apply contains_occurs in Hocc. congruence.
        -- injection E as _ _ E. exists token, before, after.
           split; [exact E |]. split; [exact Hocc |].
           intros t2 l2 Hin. apply (Hno t2 l2). right. exact Hin.
Qed.

Lemma scan_stage_map_none (table : list (string * string)) (line : string) :
  scan_stage_map table line = None
  <-> forall t l, In (t, l) table -> ~ occurs t line.
Proof.
  induction table as [| [t l] table IH]; simpl.
  - split; [intros _ ? ? [] | reflexivity].
  - destruct (contains t line) eqn:Ht.
    + split; [discriminate |]. intros H. exfalso.
      apply (H t l (or_introl eq_refl)). now apply contains_occurs.
    + rewrite IH. split.
      * intros H t' l' [Hin | Hin].
        -- injection Hin as <- <-. now apply not_contains_occurs.
        -- now apply (H t' l').
      * intros H t' l' Hin. apply (H t' l'). right. exact Hin.
Qed.

(** C8. A line that begins with the marker [STEP: ] is classified as
    the rest of the line, stripped of surrounding whitespace.  Any other
    line gets the label of the first row of the fixed table, in table
    order, whose token occurs somewhere in the line.  A line matching
    neither rule yields nothing and leaves the tracker untouched.  A
    label that is found becomes the base text and the activity label.
    So [STEP: Clustering] gives [Clustering], a line holding
    [Saved raw AnnData:] gives the label of that row, and an unmatched
    line gives nothing. *)
Theorem C8_stage_classifier :
  (forall rest : string, classify ("STEP: " ++ rest) = Some (strip rest))
  /\ (forall line label : string,
         startswith "STEP: " line = false ->
         (classify line = Some label
          <-> exists token, first_match stage_map line token label))
  /\ (forall line : string,
         startswith "STEP: " line = false ->
         (forall t l, In (t, l) stage_map -> ~ occurs t line) ->
         classify line = None
         /\ forall b : BusyState, _update_stage_from_log line b = b)
  /\ (forall (line label : string) (b : BusyState),
         classify line = Some label ->
         _busy_base_text (_update_stage_from_log line b) = label
         /\ activity_stage_toolTip (_update_stage_from_log line b) = label
         /\ activity_stage (_update_stage_from_log line b) = elidedText b label)
  /\ classify "STEP: Clustering" = Some "Clustering"
  /\ classify "Saved raw AnnData: foo.h5ad" = Some "Preparing QC"
  /\ classify "irrelevant line" = None.
Proof.
  split; [| split; [| split; [| split; [| repeat split]]]].
  - intros rest. unfold classify.
    rewrite startswith_app, replace_first_prefix. reflexivity.
  - intros line label H. unfold classify. rewrite H.
    apply scan_stage_map_some.
  - intros line H Hnone.
    assert (E : classify line = None).
    { unfold classify. rewrite H. now apply scan_stage_map_none. }
    split; [exact E |]. intros b. unfold _update_stage_from_log.
    now rewrite E.
  - intros line label b H. unfold _update_stage_from_log. rewrite H.
    repeat split.
Qed.

Lemma C8_stage_classifier_witness :
  classify "Running MANA weighted aggregation... done" = Some "MANA aggregation"
  <-> exists token,
      first_match stage_map "Running MANA weighted aggregation... done"
                  token "MANA aggregation".
Proof.
  apply (proj1 (proj2 C8_stage_classifier)). reflexivity.
Defined.

(** ** Recent-project registry *)

Lemma filter_filter_negb {A : Type} (f : A -> bool) (l : list A) :
  filter f (filter (fun x => negb (f x)) l) = [].
Proof.
  apply filter_none. intros x Hx. apply filter_In in Hx.
  destruct Hx as [_ Hx]. now destruct (f x).
Qed.

Lemma filter_negb_idem {A : Type} (f : A -> bool) (l : list A) :
  filter (fun x => negb (f x)) (filter (fun x => negb (f x)) l)
  = filter (fun x => negb (f x)) l.
Proof.
  apply filter_all. intros x Hx. apply filter_In in Hx. tauto.
Qed.

Lemma update_recent_projects (now : string) (w : MainWindow) :
  truthy (strip (data_dir_edit w)) = true ->
  truthy (strip (out_dir_edit w)) = true ->
  recent_projects (_update_recent now w)
  = (without_pair w (recent_projects w) ++ [upserted_entry now w])%list.
Proof.
  intros Hd Ho. unfold _update_recent. rewrite Hd, Ho. reflexivity.
Qed.

Lemma update_recent_edits (now : string) (w : MainWindow) :
  data_dir_edit (_update_recent now w) = data_dir_edit w
  /\ out_dir_edit (_update_recent now w) = out_dir_edit w
  /\ karospace_path_edit (_update_recent now w) = karospace_path_edit w.
Proof.
  unfold _update_recent.
  destruct (negb (truthy (strip (data_dir_edit w)))
            || negb (truthy (strip (out_dir_edit w)))); repeat split.
Qed.

Lemma same_pair_upserted (now : string) (w : MainWindow) :
  same_pair (strip (data_dir_edit w)) (strip (out_dir_edit w))
            (upserted_entry now w) = true.
Proof.
  unfold same_pair, upserted_entry. simpl. now rewrite !String.eqb_refl.
Qed.

Lemma with_pair_after (now : string) (w : MainWindow) :
  truthy (strip (data_dir_edit w)) = true ->
  truthy (strip (out_dir_edit w)) = true ->
  with_pair w (recent_projects (_update_recent now w)) = [upserted_entry now w].
Proof.
  intros Hd Ho. rewrite (update_recent_projects now w Hd Ho).
  unfold with_pair, without_pair. rewrite filter_app, filter_filter_negb.
  simpl. now rewrite same_pair_upserted.
Qed.

Lemma without_pair_after (now : string) (w : MainWindow) :
  truthy (strip (data_dir_edit w)) = true ->
  truthy (strip (out_dir_edit w)) = true ->
  without_pair w (recent_projects (_update_recent now w))
  = without_pair w (recent_projects w).
Proof.
  intros Hd Ho. rewrite (update_recent_projects now w Hd Ho).
  unfold without_pair. rewrite filter_app.
  rewrite (filter_negb_idem
             (same_pair (strip (data_dir_edit w)) (strip (out_dir_edit w)))).
  simpl. rewrite same_pair_upserted. simpl. now rewrite app_nil_r.
Qed.

(** C9, as the code has it.  When the trimmed data and output
    directories are both non-empty, the registry after [_update_recent]
    is the old one without the entries of that pair, in order, followed
    by one new entry with the pair, the export path and the timestamp;
    so exactly one entry has the pair, the entries of other pairs are
    untouched, and the whole list is what was saved.  When either
    directory is empty the window is left as it was.  Two upserts in a
    row with timestamps [t1] then [t2] leave exactly one entry for the
    pair, bearing [t2]. *)
Theorem C9_upsert :
  (forall (now : string) (w : MainWindow),
      truthy (strip (data_dir_edit w)) = true ->
      truthy (strip (out_dir_edit w)) = true ->
      let w' := _update_recent now w in
      recent_projects w'
      = (without_pair w (recent_projects w) ++ [upserted_entry now w])%list
      /\ with_pair w (recent_projects w') = [upserted_entry now w]
      /\ without_pair w (recent_projects w') = without_pair w (recent_projects w)
      /\ recent_file w' = Some (recent_projects w'))
  /\ (forall (now : string) (w : MainWindow),
         truthy (strip (data_dir_edit w)) = false
         \/ truthy (strip (out_dir_edit w)) = false ->
         _update_recent now w = w)
  /\ (forall (t1 t2 : string) (w : MainWindow),
         truthy (strip (data_dir_edit w)) = true ->
         truthy (strip (out_dir_edit w)) = true ->
         let w'' := _update_recent t2 (_update_recent t1 w) in
         with_pair w (recent_projects w'') = [upserted_entry t2 w]
         /\ without_pair w (recent_projects w'')
            = without_pair w (recent_projects w)).
Proof.
  split; [| split].
  - intros now w Hd Ho w'. subst w'.
    split; [now apply update_recent_projects |].
    split; [now apply with_pair_after |].
    split; [now apply without_pair_after |].
    unfold _update_recent. rewrite Hd, Ho. reflexivity.
  - intros now w H. unfold _update_recent.
    destruct H as [H | H]; rewrite H; simpl; [| rewrite orb_true_r]; reflexivity.
  - intros t1 t2 w Hd Ho w''. subst w''.
    destruct (update_recent_edits t1 w) as [Ed [Eo Ek]].
    set (w1 := _update_recent t1 w) in *.
    assert (Hd1 : truthy (strip (data_dir_edit w1)) = true) by now rewrite Ed.
    assert (Ho1 : truthy (strip (out_dir_edit w1)) = true) by now rewrite Eo.
    assert (Ew : forall l, with_pair w l = with_pair w1 l)
      by (intros l; unfold with_pair; now rewrite Ed, Eo).
    assert (Eu : upserted_entry t2 w = upserted_entry t2 w1)
      by (unfold upserted_entry; now rewrite Ed, Eo, Ek).
    split.
    + rewrite Ew, Eu. now apply with_pair_after.
    + assert (Eo' : forall l, without_pair w l = without_pair w1 l)
        by (intros l; unfold without_pair; now rewrite Ed, Eo).
      rewrite Eo', (without_pair_after t2 w1 Hd1 Ho1), <- Eo'.
      now apply without_pair_after.
Qed.

Lemma C9_upsert_witness :
  let w := window_at_startup (fun s => s) "d1" "o1" ""
             [ {| data_dir := "d1"; out_dir := "o1";
                  karospace_html := None; last_used := "t0" |};
               {| data_dir := "d2"; out_dir := "o1";
                  karospace_html := None; last_used := "t0" |} ] in
  with_pair w (recent_projects (_update_recent "t2" (_update_recent "t1" w)))
  = [ {| data_dir := "d1"; out_dir := "o1";
         karospace_html := None; last_used := "t2" |} ].
Proof.
  intros w.
  exact (proj1 (proj2 (proj2 C9_upsert) "t1" "t2" w eq_refl eq_refl)).
Defined.

(** C9 as stated fails: an upsert with an empty data directory appends
    no entry. *)
Lemma C9_empty_data_dir_not_recorded :
  let w := window_at_startup (fun s => s) "" "o1" "" [] in
  recent_projects (_update_recent "t1" w) = []
  /\ recent_file (_update_recent "t1" w) = None.
Proof. split; reflexivity. Qed.

(** ** Ordering of strings and [sorted] *)

Lemma ascii_compare_refl (a : ascii) : Ascii.compare a a = Eq.
Proof. unfold Ascii.compare. apply N.compare_refl. Qed.

Lemma ascii_compare_lt_trans (a b c : ascii) :
  Ascii.compare a b = Lt -> Ascii.compare b c = Lt -> Ascii.compare a c = Lt.
Proof. unfold Ascii.compare. rewrite !N.compare_lt_iff. lia. Qed.

Lemma string_compare_lt_trans (s1 : string) :
  forall s2 s3,
    String.compare s1 s2 = Lt -> String.compare s2 s3 = Lt ->
    String.compare s1 s3 = Lt.
Proof.
  induction s1 as [| a s1 IH]; intros [| b s2] [| c s3]; simpl;
    try discriminate; try reflexivity.
  destruct (Ascii.compare a b) eqn:Hab; try discriminate;
    destruct (Ascii.compare b c) eqn:Hbc; try discriminate; intros H1 H2.
  - apply Ascii.compare_eq_iff in Hab, Hbc. subst b c.
    rewrite ascii_compare_refl. now apply (IH s2).
  - apply Ascii.compare_eq_iff in Hab. subst b. now rewrite Hbc.
  - apply Ascii.compare_eq_iff in Hbc. subst c. now rewrite Hab.
  - now rewrite (ascii_compare_lt_trans a b c).
Qed.

Lemma string_compare_refl (s : string) : String.compare s s = Eq.
Proof.
  induction s as [| a s IH]; simpl; [reflexivity |].
  now rewrite ascii_compare_refl.
Qed.

Lemma string_leb_trans (s1 s2 s3 : string) :
  String.leb s1 s2 = true -> String.leb s2 s3 = true -> String.leb s1 s3 = true.
Proof.
  unfold String.leb.
  destruct (String.compare s1 s2) eqn:H12; try discriminate;
    destruct (String.compare s2 s3) eqn:H23; try discriminate; intros _ _.
  - apply String.compare_eq_iff in H12, H23. subst s2 s3.
    now rewrite string_compare_refl.
  - apply String.compare_eq_iff in H12. subst s2. now rewrite H23.
  - apply String.compare_eq_iff in H23. subst s3. now rewrite H12.
  - now rewrite (string_compare_lt_trans s1 s2 s3).
Qed.

Lemma string_leb_refl (s : string) : String.leb s s = true.
Proof. destruct (String.leb_total s s); assumption. Qed.

Lemma insert_In {A : Type} (le : A -> A -> bool) (x y : A) (l : list A) :
  In y (insert le x l) <-> y = x \/ In y l.
Proof.
  induction l as [| z l IH]; simpl.
  - intuition.
  - destruct (le x z); simpl; rewrite ?IH; intuition.
Qed.

Lemma sorted_In {A : Type} (le : A -> A -> bool) (y : A) (l : list A) :
  In y (sorted le l) <-> In y l.
Proof.
  induction l as [| x l IH]; simpl.
  - reflexivity.
  - rewrite insert_In, IH. intuition.
Qed.

Lemma insert_sorted (x : string) (l : list string) :
  StronglySorted (fun a b => String.leb a b = true) l ->
  StronglySorted (fun a b => String.leb a b = true) (insert String.leb x l).
Proof.
  induction 1 as [| y l Hl IH Hy]; simpl.
  - constructor; constructor.
  - destruct (String.leb x y) eqn:Hxy.
    + constructor; [now constructor |].
      constructor; [exact Hxy |].
      apply Forall_forall. intros z Hz.
      apply (string_leb_trans _ y); [exact Hxy |].
      apply (proj1 (Forall_forall _ _) Hy z Hz).
    + constructor; [exact IH |].
      apply Forall_forall. intros z Hz. apply insert_In in Hz.
      destruct Hz as [-> | Hz].
      * destruct (String.leb_total x y) as [H | H]; [congruence | exact H].
      * apply (proj1 (Forall_forall _ _) Hy z Hz).
Qed.

Lemma sorted_sorted (l : list string) :
  StronglySorted (fun a b => String.leb a b = true) (sorted String.leb l).
Proof.
  induction l as [| x l IH]; simpl.
  - constructor.
  - now apply insert_sorted.
Qed.

Lemma sorted_snoc_max (l : list string) (m : string) :
  StronglySorted (fun a b => String.leb a b = true) (l ++ [m])%list ->
  forall c, In c (l ++ [m])%list -> String.leb c m = true.
Proof.
  induction l as [| y l IH]; simpl; intros H c Hc.
  - destruct Hc as [<- | []]. apply string_leb_refl.
  - inversion H as [| ? ? Hs Hall]; subst.
    destruct Hc as [<- | Hc].
    + apply (proj1 (Forall_forall _ _) Hall m).
      apply in_or_app. right. now left.
    + now apply IH.
Qed.

Lemma index_last_snoc (l : list string) (m : string) :
  index_last (l ++ [m])%list = Ok m.
Proof. unfold index_last. now rewrite rev_app_distr. Qed.

(** [sorted(xs)[-1]] on a non-empty list is its greatest element. *)
Lemma sorted_last_greatest (l : list string) :
  l <> [] ->
  exists m,
    index_last (sorted String.leb l) = Ok m
    /\ In m l
    /\ forall c, In c l -> String.leb c m = true.
Proof.
  intros Hne.
  assert (Hs : sorted String.leb l <> []).
  { destruct l as [| x l]; [contradiction |].
    intros E. assert (Hin : In x (sorted String.leb (x :: l)))
      by (apply sorted_In; now left).
    rewrite E in Hin. exact Hin. }
  destruct (exists_last Hs) as [front [m E]].
  exists m. rewrite E. split; [now apply index_last_snoc |].
  pose proof (sorted_sorted l) as Hsorted. rewrite E in Hsorted.
  split.
  - apply (sorted_In String.leb). rewrite E. apply in_or_app. right. now left.
  - intros c Hc. apply (sorted_snoc_max front m Hsorted).
    rewrite <- E. now apply sorted_In.
Qed.

(** ** Default key inference *)

Lemma mem_In (x : string) (xs : list string) : mem x xs = true <-> In x xs.
Proof.
  unfold mem. rewrite existsb_exists. split.
  - intros [y [Hy E]]. apply String.eqb_eq in E. now subst y.
  - intros H. exists x. split; [exact H | apply String.eqb_refl].
Qed.

Lemma leiden_cols_In (c : string) (columns : list string) :
  In c (leiden_cols columns) <-> In c columns /\ startswith "leiden_" c = true.
Proof. apply filter_In. Qed.

Lemma infer_from_columns_leiden (columns : list string) (fallback : string) :
  leiden_cols columns <> [] ->
  exists k,
    infer_from_columns columns fallback = Ok k
    /\ In k columns
    /\ startswith "leiden_" k = true
    /\ forall c, In c columns -> startswith "leiden_" c = true ->
                 String.leb c k = true.
Proof.
  intros Hne. unfold infer_from_columns.
  destruct (sorted_last_greatest (leiden_cols columns) Hne) as [m [E [Hin Hmax]]].
  destruct (leiden_cols columns) as [| c0 rest] eqn:El; [contradiction |].
  exists m. rewrite <- El in *. apply leiden_cols_In in Hin.
  split; [exact E |]. split; [tauto |]. split; [tauto |].
  intros c Hc Hp. apply Hmax. now apply leiden_cols_In.
Qed.

Lemma infer_from_columns_plain (columns : list string) (fallback : string) :
  leiden_cols columns = [] ->
  infer_from_columns columns fallback
  = Ok (if mem fallback columns then fallback
        else match columns with
             | c :: _ => c
             | [] => fallback
             end).
Proof.
  intros E. unfold infer_from_columns. rewrite E.
  destruct (mem fallback columns); [reflexivity |].
  destruct columns; reflexivity.
Qed.

Lemma infer_from_columns_member (columns : list string) (fallback : string) :
  exists k,
    infer_from_columns columns fallback = Ok k
    /\ (columns <> [] -> In k columns)
    /\ (columns = [] -> k = fallback).
Proof.
  destruct (leiden_cols columns) as [| c0 rest] eqn:El.
  - rewrite (infer_from_columns_plain columns fallback El).
    eexists. split; [reflexivity |].
    destruct (mem fallback columns) eqn:Hm.
    + split; [intros _; now apply mem_In |]. reflexivity.
    + destruct columns as [| c cs].
      * split; [contradiction | reflexivity].
      * split; [intros _; now left | discriminate].
  - assert (Hne : leiden_cols columns <> []) by (rewrite El; discriminate).
    destruct (infer_from_columns_leiden columns fallback Hne) as [k [E [Hin _]]].
    exists k. split; [exact E |]. split; [intros _; exact Hin |].
    intros ->. contradiction.
Qed.

Lemma metadata_key_member (str_other : json -> string) (columns : list string)
  (info : cluster_info) (preferred_key : option string) (k : string) :
  metadata_key str_other columns info preferred_key = Ok (Some k) ->
  In k columns.
Proof.
  destruct info as [| | payload]; simpl; try discriminate.
  destruct (collect_candidates str_other payload preferred_key) as [cands | e];
    simpl; [| discriminate].
  intros H. injection H as H. apply find_some in H.
  now apply mem_In.
Qed.

Lemma metadata_key_total (str_other : json -> string) (columns : list string)
  (info : cluster_info) (preferred_key : option string) :
  well_formed info ->
  exists r, metadata_key str_other columns info preferred_key = Ok r.
Proof.
  destruct info as [| | payload]; simpl; try (intros _; eexists; reflexivity).
  destruct payload; try contradiction. intros _.
  unfold collect_candidates, preferred_candidates.
  destruct preferred_key as [pk |]; simpl.
  - destruct (truthy pk); simpl.
    + destruct (endswith "s" pk); simpl;
        match goal with
        | |- context [match ?l with [] => _ | _ :: _ => _ end] => destruct l
        end; simpl; eexists; reflexivity.
    + eexists; reflexivity.
  - eexists; reflexivity.
Qed.

(** C1. Whenever [_infer_default_color] returns a key and the column
    set is not empty, the key is one of the columns; with an empty
    column set the key returned is the static fallback itself.  A key is
    returned whenever the metadata is absent, unreadable or a JSON
    object. *)
Theorem C1_inferred_key_is_a_column :
  forall (str_other : json -> string) (columns : list string)
         (info : cluster_info) (fallback : string)
         (preferred_key : option string),
    (forall k,
        _infer_default_color str_other columns info fallback preferred_key = Ok k ->
        (columns <> [] -> In k columns) /\ (columns = [] -> k = fallback))
    /\ (well_formed info ->
        exists k,
          _infer_default_color str_other columns info fallback preferred_key
          = Ok k).
Proof.
  intros str_other columns info fallback preferred_key.
  destruct (infer_from_columns_member columns fallback) as [k0 [E0 [Hin0 Hfb0]]].
  unfold _infer_default_color. split.
  - intros k.
    destruct (metadata_key str_other columns info preferred_key)
      as [[mk |] | e] eqn:Em; simpl; [| | discriminate].
    + destruct (truthy mk && mem mk columns) eqn:Hc.
      * intros H. injection H as <-.
        apply andb_true_iff in Hc. destruct Hc as [_ Hc]. apply mem_In in Hc.
        split; [intros _; exact Hc |]. intros ->. contradiction.
      * rewrite E0. intros H. injection H as <-. now split.
    + rewrite E0. intros H. injection H as <-. now split.
  - intros Hwf.
    destruct (metadata_key_total str_other columns info preferred_key Hwf)
      as [[mk |] ->]; simpl.
    + destruct (truthy mk && mem mk columns); eexists; [reflexivity | exact E0].
    + eexists. exact E0.
Qed.

Lemma C1_inferred_key_is_a_column_witness :
  _infer_default_color (fun _ => "None") ["sample_id"; "region"]
    (Loaded (JObject [("cluster_key", JStr " region ")])) "leiden" None
  = Ok "region"
  /\ In "region" ["sample_id"; "region"].
Proof.
  split; [reflexivity |].
  apply (proj1 (C1_inferred_key_is_a_column (fun _ => "None")
                  ["sample_id"; "region"]
                  (Loaded (JObject [("cluster_key", JStr " region ")]))
                  "leiden" None) "region" eq_refl).
  discriminate.
Defined.

(** C7. When no metadata candidate matches a column and some column
    carries the prefix [leiden_], the key returned is such a column and
    no other prefixed column comes after it in string order; only when
    no column carries the prefix is the static fallback returned if it
    is a column, else the first column, else the fallback as given.  So
    columns [leiden_0.5], [leiden_1.0], [sample_id] with empty metadata,
    no preferred field and fallback [leiden] give [leiden_1.0]. *)
Theorem C7_last_versioned_cluster_column :
  (forall (str_other : json -> string) (columns : list string)
          (info : cluster_info) (fallback : string)
          (preferred_key : option string),
      metadata_key str_other columns info preferred_key = Ok None ->
      (leiden_cols columns <> [] ->
       exists k,
         _infer_default_color str_other columns info fallback preferred_key = Ok k
         /\ In k columns
         /\ startswith "leiden_" k = true
         /\ forall c, In c columns -> startswith "leiden_" c = true ->
                      String.leb c k = true)
      /\ (leiden_cols columns = [] ->
          _infer_default_color str_other columns info fallback preferred_key
          = Ok (if mem fallback columns then fallback
                else match columns with
                     | c :: _ => c
                     | [] => fallback
                     end)))
  /\ (forall str_other : json -> string,
         _infer_default_color str_other ["leiden_0.5"; "leiden_1.0"; "sample_id"]
           (Loaded (JObject [])) "leiden" None = Ok "leiden_1.0"
         /\ _infer_default_color str_other ["leiden_0.5"; "leiden_1.0"; "sample_id"]
              Absent "leiden" None = Ok "leiden_1.0"
         /\ _infer_default_color str_other ["sample_id"; "leiden_1.0"; "leiden_0.5"]
              (Loaded (JObject [])) "leiden" None = Ok "leiden_1.0").
Proof.
  split.
  - intros str_other columns info fallback preferred_key Hm.
    unfold _infer_default_color. rewrite Hm. simpl. split.
    + apply infer_from_columns_leiden.
    + apply infer_from_columns_plain.
  - intros str_other. repeat split.
Qed.

Lemma C7_last_versioned_cluster_column_witness :
  exists k,
    _infer_default_color (fun _ => "None")
      ["leiden_2"; "leiden_10"; "run"]
      (Loaded (JObject [("cluster_key", JStr "louvain")])) "leiden" None = Ok k
    /\ In k ["leiden_2"; "leiden_10"; "run"]
    /\ startswith "leiden_" k = true
    /\ forall c, In c ["leiden_2"; "leiden_10"; "run"] ->
                 startswith "leiden_" c = true -> String.leb c k = true.
Proof.
  apply (proj1 (proj1 C7_last_versioned_cluster_column (fun _ => "None")
                  ["leiden_2"; "leiden_10"; "run"]
                  (Loaded (JObject [("cluster_key", JStr "louvain")]))
                  "leiden" None eq_refl)).
  discriminate.
Defined.

Lemma to_candidates_truthy (str_other : json -> string) (v : option json)
  (c : string) :
  In c (_to_candidates str_other v) -> truthy c = true.
Proof.
  destruct v as [[| | | | s | items |] |]; simpl; try contradiction.
  - destruct (truthy (strip s)) eqn:E; [| contradiction].
    intros [<- | []]. exact E.
  - intros H. apply filter_In in H. tauto.
Qed.

Lemma to_candidates_clean_list (str_other : json -> string)
  (entries : list string) :
  Forall clean entries ->
  _to_candidates str_other (Some (JList (map JStr entries))) = entries.
Proof.
  simpl. induction 1 as [| e entries [He1 He2] _ IH]; simpl.
  - reflexivity.
  - rewrite He1, He2. f_equal. exact IH.
Qed.

Lemma preferred_candidates_object (str_other : json -> string)
  (fields : list (string * json)) (pk : string) :
  truthy pk = true ->
  preferred_candidates str_other (JObject fields) (Some pk)
  = Ok (_to_candidates str_other (dict_get pk fields)
        ++ if endswith "s" pk
           then _to_candidates str_other (dict_get (drop_last pk) fields)
           else [])%list.
Proof.
  intros H. unfold preferred_candidates. rewrite H. simpl.
  destruct (endswith "s" pk); simpl; [reflexivity | now rewrite app_nil_r].
Qed.

Lemma collect_candidates_truthy (str_other : json -> string)
  (fields : list (string * json)) (preferred_key : option string)
  (candidates : list string) (c : string) :
  collect_candidates str_other (JObject fields) preferred_key = Ok candidates ->
  In c candidates -> truthy c = true.
Proof.
  unfold collect_candidates.
  assert (Hp : exists l,
             preferred_candidates str_other (JObject fields) preferred_key = Ok l
             /\ forall x, In x l -> truthy x = true).
  { destruct preferred_key as [pk |]; [| exists []; split; [reflexivity | intros ? []]].
    destruct (truthy pk) eqn:Hpk.
    - rewrite (preferred_candidates_object str_other fields pk Hpk).
      eexists. split; [reflexivity |].
      intros x Hx. apply in_app_or in Hx. destruct Hx as [Hx | Hx].
      + now apply to_candidates_truthy in Hx.
      + destruct (endswith "s" pk); [| contradiction].
        now apply to_candidates_truthy in Hx.
    - exists []. unfold preferred_candidates. rewrite Hpk.
      split; [reflexivity | intros ? []]. }
  destruct Hp as [l [-> Hl]]. simpl. destruct l as [| x l]; simpl.
  - intros H. injection H as <-. apply to_candidates_truthy.
  - intros H. injection H as <-. apply Hl.
Qed.

(** C6, as the code has it.  With a preferred field, the candidates
    are those of that field (every entry of a list, in order; the value
    alone when it is a string) followed, whenever the field name ends in
    [s], by those of the field named without that [s]: the singular
    field is read whether or not the plural one gave candidates.  When
    the plural field gives none, the candidates are those of the
    singular field.  The first candidate that is a column is the key
    returned.  So metadata [{"compartment_key": "region"}], columns
    [region], [other] and preferred field [compartment_keys] give
    [region]. *)
Theorem C6_preferred_field_candidates :
  (forall (str_other : json -> string) (fields : list (string * json))
          (pk : string),
      truthy pk = true ->
      preferred_candidates str_other (JObject fields) (Some pk)
      = Ok (_to_candidates str_other (dict_get pk fields)
            ++ if endswith "s" pk
               then _to_candidates str_other (dict_get (drop_last pk) fields)
               else [])%list)
  /\ (forall (str_other : json -> string) (fields : list (string * json))
             (pk : string),
         truthy pk = true ->
         endswith "s" pk = true ->
         _to_candidates str_other (dict_get pk fields) = [] ->
         preferred_candidates str_other (JObject fields) (Some pk)
         = Ok (_to_candidates str_other (dict_get (drop_last pk) fields)))
  /\ (forall (str_other : json -> string) (entries : list string),
         Forall clean entries ->
         _to_candidates str_other (Some (JList (map JStr entries))) = entries)
  /\ (forall (str_other : json -> string) (entry : string),
         clean entry ->
         _to_candidates str_other (Some (JStr entry)) = [entry])
  /\ (forall (str_other : json -> string) (columns : list string)
             (fields : list (string * json)) (fallback : string)
             (preferred_key : option string) (candidates : list string)
             (k : string),
         collect_candidates str_other (JObject fields) preferred_key
         = Ok candidates ->
         find (fun c => mem c columns) candidates = Some k ->
         _infer_default_color str_other columns (Loaded (JObject fields))
           fallback preferred_key = Ok k)
  /\ (forall (str_other : json -> string) (fallback : string),
         _infer_default_color str_other ["region"; "other"]
           (Loaded (JObject [("compartment_key", JStr "region")]))
           fallback (Some "compartment_keys") = Ok "region").
Proof.
  split; [| split; [| split; [| split; [| split]]]].
  - apply preferred_candidates_object.
  - intros str_other fields pk Hpk Hs Hnone.
    rewrite (preferred_candidates_object str_other fields pk Hpk).
    now rewrite Hs, Hnone.
  - apply to_candidates_clean_list.
  - intros str_other entry [H1 H2]. simpl. now rewrite H1, H2.
  - intros str_other columns fields fallback preferred_key candidates k Hc Hf.
    unfold _infer_default_color, metadata_key. rewrite Hc. simpl. rewrite Hf.
    apply find_some in Hf. destruct Hf as [Hin Hmem].
    rewrite (collect_candidates_truthy _ _ _ _ _ Hc Hin), Hmem. reflexivity.
  - intros str_other fallback. reflexivity.
Qed.

Lemma C6_preferred_field_candidates_witness :
  preferred_candidates (fun _ => "None")
    (JObject [("cluster_keys", JList [JStr "leiden_0.5"; JStr "leiden_1"]);
              ("cluster_key", JStr "leiden_1")])
    (Some "cluster_keys")
  = Ok ["leiden_0.5"; "leiden_1"; "leiden_1"].
Proof.
  exact (proj1 C6_preferred_field_candidates (fun _ => "None")
           [("cluster_keys", JList [JStr "leiden_0.5"; JStr "leiden_1"]);
            ("cluster_key", JStr "leiden_1")]
           "cluster_keys" eq_refl).
Defined.

(** C6 as stated fails: the plural field yields the candidate [a], and
    the singular field is read all the same; its value [b] is the key
    returned, where the reading of the specification stops at [a]. *)
Lemma C6_singular_read_after_plural :
  let payload :=
    JObject [("compartment_keys", JList [JStr "a"]);
             ("compartment_key", JStr "b")] in
  _to_candidates (fun _ => "None") (dict_get "compartment_keys"
      [("compartment_keys", JList [JStr "a"]); ("compartment_key", JStr "b")])
  = ["a"]
  /\ preferred_candidates (fun _ => "None") payload (Some "compartment_keys")
     = Ok ["a"; "b"]
  /\ spec_preferred_candidates (fun _ => "None") payload "compartment_keys"
     = Ok ["a"]
  /\ _infer_default_color (fun _ => "None") ["x"; "b"] (Loaded payload)
       "leiden" (Some "compartment_keys") = Ok "b".
Proof. repeat split. Qed.

(** ** Jobs and their completion *)

Lemma update_stage_keeps (line : string) (b : BusyState) :
  _busy_counter (_update_stage_from_log line b) = _busy_counter b
  /\ _busy_has_error (_update_stage_from_log line b) = _busy_has_error b
  /\ status_chip (_update_stage_from_log line b) = status_chip b.
Proof.
  unfold _update_stage_from_log. destruct (classify line); repeat split.
Qed.

Lemma log_lines_keeps (lines : list string) (classify_stage : bool) :
  forall w,
    _busy_counter (busy (log_lines lines classify_stage w))
    = _busy_counter (busy w)
    /\ _busy_has_error (busy (log_lines lines classify_stage w))
       = _busy_has_error (busy w)
    /\ status_chip (busy (log_lines lines classify_stage w))
       = status_chip (busy w)
    /\ top_run_btn_enabled (log_lines lines classify_stage w)
       = top_run_btn_enabled w.
Proof.
  induction lines as [| line lines IH]; intros w; simpl.
  - repeat split.
  - destruct (truthy (strip line)); [| apply IH].
    destruct classify_stage.
    + destruct (IH (with_busy (_update_stage_from_log line) (_log line w)))
        as [E1 [E2 [E3 E4]]].
      rewrite E1, E2, E3, E4. simpl.
      destruct (update_stage_keeps line (busy w)) as [F1 [F2 F3]].
      now rewrite F1, F2, F3.
    + apply (IH (_log line w)).
Qed.

Lemma update_recent_busy (now : string) (w : MainWindow) :
  busy (_update_recent now w) = busy w
  /\ top_run_btn_enabled (_update_recent now w) = top_run_btn_enabled w.
Proof.
  unfold _update_recent.
  destruct (negb (truthy (strip (data_dir_edit w)))
            || negb (truthy (strip (out_dir_edit w)))); split; reflexivity.
Qed.

Lemma on_process_finished_busy (now : string) (exit_code : Z) (w : MainWindow) :
  busy (_on_process_finished now exit_code w)
  = _leave_busy (negb (exit_code =? 0)%Z) (busy w).
Proof.
  unfold _on_process_finished. cbv zeta.
  match goal with |- context [if ?c then _ else _] => destruct c end.
  - now rewrite (proj1 (update_recent_busy _ _)).
  - reflexivity.
Qed.

Lemma on_finished_busy (proc : nat) (output_path : Path) (exit_code : Z)
  (w : MainWindow) :
  busy (_on_finished proc output_path exit_code w)
  = _leave_busy (negb (exit_code =? 0)%Z) (busy w).
Proof.
  unfold _on_finished. destruct (negb (exit_code =? 0)%Z); reflexivity.
Qed.

Lemma pipeline_slots_counter (w : MainWindow)
  (delivery : string * qprocess_signal) :
  _busy_counter (busy (pipeline_slots w delivery))
  = if is_finished delivery then decremented (_busy_counter (busy w))
    else _busy_counter (busy w).
Proof.
  destruct delivery as [now [| output | exit_code | error]]; simpl;
    try reflexivity.
  - unfold _on_process_output. destruct (negb (process_set w)); [reflexivity |].
    apply log_lines_keeps.
  - rewrite on_process_finished_busy. apply leave_counter.
Qed.

Lemma plot_slots_counter (proc : nat) (output_path : Path) (w : MainWindow)
  (delivery : string * qprocess_signal) :
  _busy_counter (busy (plot_slots proc output_path w delivery))
  = if is_finished delivery then decremented (_busy_counter (busy w))
    else _busy_counter (busy w).
Proof.
  destruct delivery as [now [| output | exit_code | error]]; simpl;
    try reflexivity.
  - apply log_lines_keeps.
  - rewrite on_finished_busy. apply leave_counter.
Qed.

Section Delivery.
Variable slots : MainWindow -> string * qprocess_signal -> MainWindow.
Hypothesis slots_counter :
    forall w delivery,
      _busy_counter (busy (slots w delivery))
      = if is_finished delivery then decremented (_busy_counter (busy w))
        else _busy_counter (busy w).

Lemma delivered_counter (signals : list (string * qprocess_signal)) :
    forall w,
      (0 <= _busy_counter (busy w))%Z ->
      _busy_counter (busy (fold_left slots signals w))
      = Z.max 0 (_busy_counter (busy w) - Z.of_nat (completions signals)).
Proof.
    unfold completions.
    induction signals as [| d signals IH]; intros w Hw; simpl.
    - lia.
    - pose proof (slots_counter w d) as Hd.
      assert (Hw' : (0 <= _busy_counter (busy (slots w d)))%Z).
      { rewrite Hd. unfold decremented.
        destruct (is_finished d); [| exact Hw].
        destruct (Z.gtb_spec (_busy_counter (busy w)) 0); lia. }
      rewrite (IH _ Hw'), Hd. unfold decremented.
      destruct (is_finished d); simpl List.length; [| reflexivity].
      destruct (Z.gtb_spec (_busy_counter (busy w)) 0); lia.
Qed.
End Delivery.

Lemma pipeline_slots_unfinished (w : MainWindow)
  (delivery : string * qprocess_signal) :
  is_finished delivery = false ->
  status_chip (busy (pipeline_slots w delivery)) = status_chip (busy w)
  /\ top_run_btn_enabled (pipeline_slots w delivery) = top_run_btn_enabled w.
Proof.
  destruct delivery as [now [| output | exit_code | error]]; simpl;
    try discriminate; try (split; reflexivity).
  intros _. unfold _on_process_output.
  destruct (negb (process_set w)); [split; reflexivity |].
  split; apply log_lines_keeps.
Qed.

Lemma pipeline_unfinished (signals : list (string * qprocess_signal)) :
  forall w,
    completions signals = 0%nat ->
    status_chip (busy (fold_left pipeline_slots signals w)) = status_chip (busy w)
    /\ top_run_btn_enabled (fold_left pipeline_slots signals w)
       = top_run_btn_enabled w.
Proof.
  unfold completions.
  induction signals as [| d signals IH]; intros w H; simpl.
  - split; reflexivity.
  - simpl in H. destruct (is_finished d) eqn:Hd; [discriminate H |].
    destruct (IH (pipeline_slots w d) H) as [E1 E2].
    destruct (pipeline_slots_unfinished w d Hd) as [F1 F2].
    rewrite E1, E2, F1, F2. split; reflexivity.
Qed.

(** C3, as the code has it.  A job is counted in by its start and
    counted out once by each [finished] signal that its process
    delivers, and by nothing else: after a pipeline job or a plot job the
    busy counter is the old one plus one, less the number of [finished]
    signals, and not below zero.  A job whose process delivers no
    [finished] signal leaves the counter raised, the status at Running
    and the run button disabled; no slot is connected to the error
    signal. *)
Theorem C3_completion_per_finished_signal :
  (forall (signals : list (string * qprocess_signal)) (w : MainWindow),
      (0 <= _busy_counter (busy w))%Z ->
      _busy_counter (busy (pipeline_job signals w))
      = Z.max 0 (_busy_counter (busy w) + 1 - Z.of_nat (completions signals)))
  /\ (forall (proc : nat) (output_path : Path)
             (signals : list (string * qprocess_signal)) (w : MainWindow),
         (0 <= _busy_counter (busy w))%Z ->
         _busy_counter (busy (plot_job proc output_path signals w))
         = Z.max 0 (_busy_counter (busy w) + 1 - Z.of_nat (completions signals)))
  /\ (forall (signals : list (string * qprocess_signal)) (w : MainWindow),
         (0 <= _busy_counter (busy w))%Z ->
         completions signals = 0%nat ->
         _busy_counter (busy (pipeline_job signals w))
         = (_busy_counter (busy w) + 1)%Z
         /\ status_chip (busy (pipeline_job signals w)) = "Running"
         /\ top_run_btn_enabled (pipeline_job signals w) = false)
  /\ (forall (w : MainWindow) (now : string) (error : ProcessError),
         pipeline_slots w (now, errorOccurred error) = w
         /\ forall proc output_path,
             plot_slots proc output_path w (now, errorOccurred error) = w).
Proof.
  split; [| split; [| split]].
  - intros signals w Hw. unfold pipeline_job.
    rewrite (delivered_counter pipeline_slots pipeline_slots_counter).
    + reflexivity.
    + simpl. lia.
  - intros proc output_path signals w Hw. unfold plot_job.
    rewrite (delivered_counter (plot_slots proc output_path)
               (plot_slots_counter proc output_path)).
    + reflexivity.
    + simpl. lia.
  - intros signals w Hw Hnone. unfold pipeline_job.
    rewrite (delivered_counter pipeline_slots pipeline_slots_counter)
      by (simpl; lia).
    destruct (pipeline_unfinished signals (start_pipeline w) Hnone) as [E1 E2].
    rewrite E1, E2, Hnone. simpl. repeat split. lia.
  - intros w now error. split; reflexivity.
Qed.

Lemma C3_completion_per_finished_signal_witness :
  let w := window_at_startup (fun s => s) "data" "out" "" [] in
  _busy_counter (busy (pipeline_job
                         [("t1", readyReadStandardOutput "STEP: Clustering");
                          ("t2", finished 1)] w))
  = Z.max 0 (_busy_counter (busy w) + 1 - 1).
Proof.
  intros w.
  apply (proj1 C3_completion_per_finished_signal
           [("t1", readyReadStandardOutput "STEP: Clustering");
            ("t2", finished 1)] w).
  simpl. lia.
Defined.

(** C3 as stated fails: when the program cannot be started the process
    delivers its error signal and no [finished]; no completion is
    notified, and the counter stays raised with the status at Running
    and the run button disabled. *)
Lemma C3_failed_start_never_completes :
  let w := window_at_startup (fun s => s) "data" "out" "" [] in
  let w' := pipeline_job (failed_to_start_signals "t1") w in
  completions (failed_to_start_signals "t1") = 0%nat
  /\ _busy_counter (busy w) = 0%Z
  /\ _busy_counter (busy w') = 1%Z
  /\ status_chip (busy w') = "Running"
  /\ top_run_btn_enabled w' = false
  /\ log_view w' = ["Starting pipeline..."]
  /\ _busy_counter
       (busy (plot_job 0 ["out"; "plots"; "umap.png"]
                (failed_to_start_signals "t1") w)) = 1%Z.
Proof. repeat split. Qed.

(** ** Further properties of the busy tracker *)

Lemma step_consistent (b : BusyState) (c : busy_call) :
  busy_consistent b -> busy_consistent (busy_step b c).
Proof.
  unfold busy_consistent. intros [Hc [Ht [Hr Hi]]].
  destruct c as [stage_text | failed | ]; cbn [busy_step].
  - unfold _enter_busy. cbn.
    destruct (Z.eqb_spec (_busy_counter b) 0) as [E | E].
    + rewrite E. cbn. repeat split; try lia; auto.
    + repeat split; try lia; auto.
      rewrite Ht.
      destruct (Z.gtb_spec (_busy_counter b) 0),
               (Z.gtb_spec (_busy_counter b + 1) 0); auto; lia.
  - unfold _leave_busy.
    destruct (Z.gtb_spec (_busy_counter b) 0) as [Hp | Hp].
    + destruct (Z.eqb_spec (_busy_counter b - 1) 0) as [E | E]; cbn.
      * rewrite E. cbn. repeat split; try lia.
        intros _. destruct failed; [now right |].
        destruct (_busy_has_error b); [now right | now left].
      * repeat split; try lia.
        -- rewrite Ht.
           destruct (Z.gtb_spec (_busy_counter b) 0),
                    (Z.gtb_spec (_busy_counter b - 1) 0); auto; lia.
        -- intros _. apply Hr. lia.
    + assert (E : _busy_counter b = 0%Z) by lia.
      rewrite E. cbn. repeat split; try lia.
      intros _. destruct failed; [now right |].
      destruct (_busy_has_error b); [now right | now left].
  - unfold _animate_busy_state.
    destruct (Z.leb_spec (_busy_counter b) 0) as [Hp | Hp]; cbn.
    + repeat split; auto; try lia.
    + repeat split; auto; try lia.
Qed.

Lemma run_consistent (calls : list busy_call) :
  forall b, busy_consistent b -> busy_consistent (busy_run calls b).
Proof.
  unfold busy_run.
  induction calls as [| c calls IH]; intros b H; simpl.
  - exact H.
  - apply IH. now apply step_consistent.
Qed.

(** Whatever calls reach the tracker after start-up, the animation timer
    is running exactly when the job counter is above zero, the status
    chip reads Running while it is, and reads Ready or Error when it is
    zero. *)
Theorem busy_timer_and_status_follow_counter :
  forall (elide : string -> string) (calls : list busy_call),
    let b := busy_run calls (initial_busy elide) in
    (0 <= _busy_counter b)%Z
    /\ _busy_timer_active b = (_busy_counter b >? 0)%Z
    /\ ((0 < _busy_counter b)%Z -> status_chip b = "Running")
    /\ (_busy_counter b = 0%Z ->
        status_chip b = "Ready" \/ status_chip b = "Error").
Proof.
  intros elide calls. apply run_consistent.
  unfold busy_consistent. cbn. repeat split; try lia; auto.
Qed.

(** ** Further properties of the busy tracker, continued *)

Lemma step_error_flag (b : BusyState) (c : busy_call) :
  (0 < _busy_counter b)%Z ->
  _busy_has_error (busy_step b c) = _busy_has_error b || failed_leave c.
Proof.
  intros Hp. destruct c as [stage_text | failed | ]; cbn [busy_step].
  - unfold _enter_busy. cbn.
    destruct (Z.eqb_spec (_busy_counter b) 0); [lia |].
    now rewrite orb_false_r.
  - unfold _leave_busy.
    destruct (Z.gtb_spec (_busy_counter b) 0); [| lia].
    destruct (Z.eqb_spec (_busy_counter b - 1) 0); cbn;
      destruct failed; cbn; now rewrite ?orb_true_r, ?orb_false_r.
  - unfold _animate_busy_state.
    destruct (Z.leb_spec (_busy_counter b) 0); [lia |]. cbn.
    now rewrite orb_false_r.
Qed.

Lemma drain_status (b : BusyState) (c : busy_call) :
  (0 < _busy_counter b)%Z ->
  _busy_counter (busy_step b c) = 0%Z ->
  status_chip (busy_step b c)
  = if _busy_has_error b || failed_leave c then "Error" else "Ready".
Proof.
  intros Hp. destruct c as [stage_text | failed | ]; cbn [busy_step].
  - rewrite enter_counter. lia.
  - unfold _leave_busy.
    destruct (Z.gtb_spec (_busy_counter b) 0); [| lia].
    destruct (Z.eqb_spec (_busy_counter b - 1) 0); cbn; [| contradiction].
    intros _. destruct failed; cbn; [now rewrite orb_true_r |].
    now rewrite orb_false_r.
  - rewrite tick_counter. lia.
Qed.

Lemma batch_error_flag (rest : list busy_call) :
  forall b,
    (0 < _busy_counter b)%Z ->
    running_before rest b ->
    _busy_counter (busy_run rest b) = 0%Z ->
    _busy_has_error (busy_run rest b)
    = _busy_has_error b || existsb failed_leave rest
    /\ status_chip (busy_run rest b)
       = if _busy_has_error b || existsb failed_leave rest
         then "Error" else "Ready".
Proof.
  induction rest as [| c rest IH]; intros b Hp Hrun Hz.
  - cbn in Hz. lia.
  - destruct rest as [| c2 rest].
    + cbn -[busy_step] in *. rewrite orb_false_r. split.
      * now apply step_error_flag.
      * now apply drain_status.
    + assert (Hp' : (0 < _busy_counter (busy_step b c))%Z)
        by exact (Hrun [c] c2 rest eq_refl).
      assert (Hrun' : running_before (c2 :: rest) (busy_step b c)).
      { intros pre c' post E.
        exact (Hrun (c :: pre) c' post (f_equal (cons c) E)). }
      destruct (IH (busy_step b c) Hp' Hrun' Hz) as [E1 E2].
      change (busy_run (c :: c2 :: rest) b)
        with (busy_run (c2 :: rest) (busy_step b c)).
      rewrite E1, E2, (step_error_flag b c Hp).
      change (existsb failed_leave (c :: c2 :: rest))
        with (failed_leave c || existsb failed_leave (c2 :: rest)).
      rewrite orb_assoc. split; reflexivity.
Qed.

(** A batch of jobs that starts from an idle tracker and runs until the
    counter is back at zero ends with status Error exactly when one of
    its completions reported a failure, and with Ready otherwise: a
    failure left over from an earlier batch is not carried in. *)
Theorem busy_batch_reports_its_own_failures :
  forall (b : BusyState) (stage_text : string) (rest : list busy_call),
    _busy_counter b = 0%Z ->
    running_before rest (_enter_busy stage_text b) ->
    _busy_counter (busy_run rest (_enter_busy stage_text b)) = 0%Z ->
    let final := busy_run rest (_enter_busy stage_text b) in
    _busy_has_error final = existsb failed_leave rest
    /\ status_chip final
       = if existsb failed_leave rest then "Error" else "Ready".
Proof.
  intros b stage_text rest Hz Hrun Hend final. subst final.
  assert (Hp : (0 < _busy_counter (_enter_busy stage_text b))%Z)
    by (rewrite enter_counter; lia).
  assert (He : _busy_has_error (_enter_busy stage_text b) = false)
    by (unfold _enter_busy; cbn; now rewrite Hz).
  destruct (batch_error_flag rest _ Hp Hrun Hend) as [E1 E2].
  rewrite E1, E2, He. split; reflexivity.
Qed.


Lemma busy_batch_reports_its_own_failures_witness :
  let b := busy_run [Enter "A"; Leave true] (initial_busy (fun s => s)) in
  let final := busy_run [Enter "C"; Leave false; Tick; Leave false]
                        (_enter_busy "B" b) in
  _busy_has_error b = true
  /\ _busy_has_error final
     = existsb failed_leave [Enter "C"; Leave false; Tick; Leave false]
  /\ status_chip final
     = if existsb failed_leave [Enter "C"; Leave false; Tick; Leave false]
       then "Error" else "Ready".
Proof.
  intros b final. split; [vm_compute; reflexivity |].
  refine (busy_batch_reports_its_own_failures b "B"
            [Enter "C"; Leave false; Tick; Leave false] _ _ _).
  - vm_compute. reflexivity.
  - intros pre c post E.
    destruct pre as [| c1 pre]; cbn [app] in E;
      [injection E as <- _; vm_compute; reflexivity |].
    destruct pre as [| c2 pre]; cbn [app] in E;
      [injection E as <- <- _; vm_compute; reflexivity |].
    destruct pre as [| c3 pre]; cbn [app] in E;
      [injection E as <- <- <- _; vm_compute; reflexivity |].
    destruct pre as [| c4 pre]; cbn [app] in E;
      [injection E as <- <- <- <- _; vm_compute; reflexivity |].
    destruct pre; discriminate E.
  - vm_compute. reflexivity.
Defined.








(** ** Output of a running job *)

Lemma last_cons_indep {A : Type} (l : list A) :
  forall (a d d' : A), last (a :: l) d = last (a :: l) d'.
Proof.
  induction l as [| b l IH]; intros a d d'; [reflexivity |].
  change (last (b :: l) d = last (b :: l) d'). apply IH.
Qed.

Lemma last_app_default {A : Type} (l1 l2 : list A) (d : A) :
  last (l1 ++ l2) d = last l2 (last l1 d).
Proof.
  induction l1 as [| a l1 IH]; [reflexivity |].
  destruct l1 as [| b l1].
  - destruct l2 as [| c l2]; [reflexivity |].
    change (last (c :: l2) d = last (c :: l2) a). apply last_cons_indep.
  - change (last ((b :: l1) ++ l2) d = last l2 (last (b :: l1) d)).
    exact IH.
Qed.

Lemma log_lines_log (lines : list string) (classify_stage : bool) :
  forall w,
    log_view (log_lines lines classify_stage w)
    = (log_view w ++ nonblank_lines lines)%list.
Proof.
  unfold nonblank_lines.
  induction lines as [| line lines IH]; intros w; cbn [log_lines filter].
  - now rewrite app_nil_r.
  - destruct (truthy (strip line)); [| apply IH].
    destruct classify_stage; rewrite IH; cbn; now rewrite <- app_assoc.
Qed.

Lemma log_lines_frame (lines : list string) (classify_stage : bool) :
  forall w,
    let w' := log_lines lines classify_stage w in
    data_dir_edit w' = data_dir_edit w
    /\ out_dir_edit w' = out_dir_edit w
    /\ karospace_path_edit w' = karospace_path_edit w
    /\ recent_projects w' = recent_projects w
    /\ recent_file w' = recent_file w
    /\ _plot_processes w' = _plot_processes w
    /\ process_set w' = process_set w.
Proof.
  induction lines as [| line lines IH]; intros w; cbn [log_lines].
  - repeat split.
  - destruct (truthy (strip line)); [| apply IH].
    destruct classify_stage.
    + apply (IH (with_busy (_update_stage_from_log line) (_log line w))).
    + apply (IH (_log line w)).
Qed.

Lemma log_lines_quiet (lines : list string) :
  forall w, busy (log_lines lines false w) = busy w.
Proof.
  induction lines as [| line lines IH]; intros w; cbn [log_lines].
  - reflexivity.
  - destruct (truthy (strip line)); [| apply IH].
    now rewrite IH.
Qed.

Lemma log_lines_stage (lines : list string) :
  forall w,
    _busy_base_text (busy (log_lines lines true w))
    = last (announced_stages lines) (_busy_base_text (busy w))
    /\ activity_stage_toolTip (busy (log_lines lines true w))
       = last (announced_stages lines) (activity_stage_toolTip (busy w)).
Proof.
  induction lines as [| line lines IH]; intros w;
    cbn [log_lines announced_stages flat_map].
  - split; reflexivity.
  - fold (announced_stages lines). rewrite !last_app_default.
    destruct (truthy (strip line)); [| apply IH].
    destruct (IH (with_busy (_update_stage_from_log line) (_log line w)))
      as [E1 E2].
    rewrite E1, E2. cbn [busy with_busy _log].
    unfold _update_stage_from_log.
    destruct (classify line); split; reflexivity.
Qed.

(** A chunk of pipeline output is written to the log line by line,
    blank lines left out and order kept; the stage shown afterwards is
    the one announced by the last line that announces a stage, or the
    previous stage when no line does.  The job counter, the error flag
    and the status chip are not touched.  Before any process object
    exists the chunk is ignored. *)
Theorem pipeline_output_logged_and_staged :
  forall (output : string) (w : MainWindow),
    let lines := splitlines output in
    let w' := _on_process_output output w in
    (process_set w = true ->
     log_view w' = (log_view w ++ nonblank_lines lines)%list
     /\ _busy_base_text (busy w')
        = last (announced_stages lines) (_busy_base_text (busy w))
     /\ activity_stage_toolTip (busy w')
        = last (announced_stages lines) (activity_stage_toolTip (busy w))
     /\ _busy_counter (busy w') = _busy_counter (busy w)
     /\ _busy_has_error (busy w') = _busy_has_error (busy w)
     /\ status_chip (busy w') = status_chip (busy w))
    /\ (process_set w = false -> w' = w).
Proof.
  intros output w lines w'. subst lines w'. unfold _on_process_output.
  split; intros H; rewrite H; cbn [negb]; [| reflexivity].
  destruct (log_lines_stage (splitlines output) w) as [S1 S2].
  destruct (log_lines_keeps (splitlines output) true w) as [K1 [K2 [K3 _]]].
  rewrite log_lines_log. repeat split; assumption.
Qed.

Lemma pipeline_output_logged_and_staged_witness :
  let w := start_pipeline (window_at_startup (fun s => s) "data" "out" "" []) in
  let output :=
    "STEP: Load" ++ String "010"%char ("   " ++ String "010"%char
      ("Saved QC outputs: qc" ++ String "010"%char "done")) in
  log_view (_on_process_output output w)
  = ["Starting pipeline..."; "STEP: Load"; "Saved QC outputs: qc"; "done"]
  /\ _busy_base_text (busy (_on_process_output output w)) = "QC complete".
Proof.
  intros w output.
  destruct (proj1 (pipeline_output_logged_and_staged output w) eq_refl)
    as [E1 [E2 _]].
  split; [exact E1 | exact E2].
Defined.

(** Output of a plot job is only logged: its non-blank lines are
    appended to the log in order, and the busy tracker, with the stage
    label, stays as it is. *)
Theorem plot_output_only_logged :
  forall (output : string) (w : MainWindow),
    log_view (_on_plot_output output w)
    = (log_view w ++ nonblank_lines (splitlines output))%list
    /\ busy (_on_plot_output output w) = busy w
    /\ _plot_processes (_on_plot_output output w) = _plot_processes w.
Proof.
  intros output w. unfold _on_plot_output.
  split; [apply log_lines_log |].
  split; [apply log_lines_quiet |].
  apply (log_lines_frame (splitlines output) false w).
Qed.

(** ** A job from start to completion *)








Lemma remove_first_appended (proc : nat) (procs : list nat) :
  ~ In proc procs -> remove_first proc (procs ++ [proc]) = procs.
Proof.
  induction procs as [| p procs IH]; intros H; cbn.
  - now rewrite Nat.eqb_refl.
  - destruct (Nat.eqb_spec proc p) as [-> | _].
    + exfalso. apply H. now left.
    + f_equal. apply IH. intros Hin. apply H. now right.
Qed.

Lemma plot_output_only_logged_aux (output : string) (w : MainWindow) :
  busy (_on_plot_output output w) = busy w
  /\ _plot_processes (_on_plot_output output w) = _plot_processes w.
Proof.
  unfold _on_plot_output. split; [apply log_lines_quiet |].
  apply (log_lines_frame (splitlines output) false w).
Qed.

Lemma plot_unfinished_frame (proc : nat) (output_path : Path)
  (signals : list (string * qprocess_signal)) :
  forall w,
    completions signals = 0%nat ->
    let w' := fold_left (plot_slots proc output_path) signals w in
    busy w' = busy w /\ _plot_processes w' = _plot_processes w.
Proof.
  unfold completions.
  induction signals as [| d signals IH]; intros w H; cbn [fold_left].
  - split; reflexivity.
  - cbn [filter] in H. destruct (is_finished d) eqn:Hd; [discriminate H |].
    destruct (IH (plot_slots proc output_path w d) H) as [E1 E2].
    cbv zeta. rewrite E1, E2.
    destruct d as [now [| output | exit_code | error]]; cbn in Hd |- *;
      try discriminate; try (split; reflexivity).
    destruct (plot_output_only_logged_aux output w) as [B P].
    split; assumption.
Qed.

(** A plot job whose process delivers output and then one [finished]
    signal leaves the list of running plot processes and the job counter
    as they were before the job; a non-zero exit code sets the error
    flag, and the last log line says whether the plot is ready or its
    generation failed. *)
Theorem plot_job_completes :
  forall (proc : nat) (output_path : Path)
         (signals : list (string * qprocess_signal)) (now : string)
         (exit_code : Z) (w : MainWindow),
    ~ In proc (_plot_processes w) ->
    (0 <= _busy_counter (busy w))%Z ->
    completions signals = 0%nat ->
    let w' := plot_job proc output_path
                (signals ++ [(now, finished exit_code)]) w in
    _plot_processes w' = _plot_processes w
    /\ _busy_counter (busy w') = _busy_counter (busy w)
    /\ (exit_code <> 0%Z -> _busy_has_error (busy w') = true)
    /\ last (log_view w') EmptyString
       = (if (exit_code =? 0)%Z then "Plot ready: "
          else "Plot generation failed: ") ++ path_name output_path.
Proof.
  intros proc output_path signals now exit_code w Hfresh Hc Hnone w'.
  subst w'. unfold plot_job. rewrite fold_left_app.
  cbn [fold_left plot_slots].
  destruct (plot_unfinished_frame proc output_path signals
              (_run_visual_process proc output_path w) Hnone) as [E1 E2].
  set (wm := fold_left (plot_slots proc output_path) signals
                       (_run_visual_process proc output_path w)) in *.
  cbv zeta in E1, E2.
  assert (Hm : _busy_counter (busy wm) = (_busy_counter (busy w) + 1)%Z)
    by (rewrite E1; reflexivity).
  assert (Hp : _plot_processes wm = (_plot_processes w ++ [proc])%list)
    by (rewrite E2; reflexivity).
  split; [| split; [| split]].
  - unfold _on_finished. destruct (negb (exit_code =? 0)%Z); cbn;
      rewrite Hp; now apply remove_first_appended.
  - rewrite on_finished_busy, leave_counter, Hm.
    destruct (Z.gtb_spec (_busy_counter (busy w) + 1) 0); lia.
  - intros Hne. rewrite on_finished_busy.
    destruct (Z.eqb_spec exit_code 0) as [-> | _]; [contradiction |].
    apply leave_failed_sets_error.
  - unfold _on_finished.
    destruct (exit_code =? 0)%Z; cbn [negb with_busy _log log_view];
      rewrite last_app_default; reflexivity.
Qed.

Lemma plot_job_completes_witness :
  let w := start_pipeline (window_at_startup (fun s => s) "data" "out" "" []) in
  let w' := plot_job 7 ["out"; "plots"; "umap.png"]
              [("t1", readyReadStandardOutput "drawing"); ("t2", finished 1)] w in
  _plot_processes w' = []
  /\ _busy_counter (busy w') = 1%Z
  /\ (1%Z <> 0%Z -> _busy_has_error (busy w') = true)
  /\ last (log_view w') EmptyString = "Plot generation failed: umap.png".
Proof.
  intros w w'.
  refine (plot_job_completes 7 ["out"; "plots"; "umap.png"]
            [("t1", readyReadStandardOutput "drawing")] "t2" 1 w _ _ _).
  - intros [].
  - vm_compute. discriminate.
  - reflexivity.
Defined.

(** ** The overwrite prompt *)

(** With something to overwrite, [_confirm_overwrite] shows exactly one
    dialog, carrying the given title and prompt, with No as its default
    button, and answers true exactly when the user presses Yes.  A
    pipeline run that the user declines starts no job: the window only
    gains the log line about the cancellation. *)
Theorem overwrite_prompt_asks_once :
  forall (user : QMessageBox -> StandardButton) (paths : list Path)
         (title prompt : string),
    paths <> [] ->
    (exists box,
        run_ui user (_confirm_overwrite paths title prompt)
        = (button_eqb (user box) Yes, [box])
        /\ windowTitle box = title
        /\ text box = prompt
        /\ defaultButton box = No
        /\ detailedText box = overwrite_details paths)
    /\ (forall (fs : filesystem) (out_dir : Path) (extra : option Path)
               (w : MainWindow),
           _collect_existing_pipeline_outputs fs out_dir extra = paths ->
           exists box,
             snd (run_ui user (run_pipeline_checked fs out_dir extra w)) = [box]
             /\ (user box = Yes ->
                 fst (run_ui user (run_pipeline_checked fs out_dir extra w))
                 = start_pipeline w)
             /\ (user box = No ->
                 fst (run_ui user (run_pipeline_checked fs out_dir extra w))
                 = _log "Run cancelled by user (existing outputs)." w)).
Proof.
  intros user paths title prompt Hne.
  destruct paths as [| p paths]; [contradiction |].
  split.
  - eexists. cbn. repeat split.
  - intros fs out_dir extra w E. unfold run_pipeline_checked. rewrite E.
    exists {| windowTitle := "Existing outputs found";
              text := "Run pipeline and overwrite existing outputs?";
              informativeText := "Existing files will be replaced.";
              detailedText := overwrite_details (p :: paths);
              standardButtons := [Yes; No];
              defaultButton := No |}.
    cbn.
    match goal with |- context [user ?b] => destruct (user b) eqn:U end;
      cbn; repeat split; intros; congruence.
Qed.

Lemma overwrite_prompt_asks_once_witness :
  exists box,
    run_ui (fun _ => No)
           (_confirm_overwrite [["out"; "data"; "raw.h5ad"]] "T" "P")
    = (button_eqb No Yes, [box])
    /\ windowTitle box = "T"
    /\ text box = "P"
    /\ defaultButton box = No
    /\ detailedText box = overwrite_details [["out"; "data"; "raw.h5ad"]].
Proof.
  refine (proj1 (overwrite_prompt_asks_once (fun _ => No)
                   [["out"; "data"; "raw.h5ad"]] "T" "P" _)).
  discriminate.
Defined.

(** ** Display and upkeep of the recent-project list *)

Section SortedBy.
Context {A : Type} (le : A -> A -> bool).
Hypothesis le_total : forall x y, le x y = true \/ le y x = true.
Hypothesis le_trans :
  forall x y z, le x y = true -> le y z = true -> le x z = true.

Lemma insert_permutation (x : A) (l : list A) :
  Permutation (insert le x l) (x :: l).
Proof.
  induction l as [| y l IH]; cbn.
  - apply Permutation_refl.
  - destruct (le x y); [apply Permutation_refl |].
    apply perm_trans with (y :: x :: l); [now apply perm_skip | apply perm_swap].
Qed.

Lemma sorted_permutation (l : list A) : Permutation (sorted le l) l.
Proof.
  induction l as [| x l IH]; cbn.
  - apply perm_nil.
  - apply perm_trans with (x :: sorted le l);
      [apply insert_permutation | now apply perm_skip].
Qed.

Lemma insert_ordered (x : A) (l : list A) :
  StronglySorted (fun a b => le a b = true) l ->
  StronglySorted (fun a b => le a b = true) (insert le x l).
Proof.
  induction 1 as [| y l Hl IH Hy]; cbn.
  - constructor; constructor.
  - destruct (le x y) eqn:Hxy.
    + constructor; [now constructor |].
      constructor; [exact Hxy |].
      apply Forall_forall. intros z Hz.
      apply (le_trans x y z Hxy).
      apply (proj1 (Forall_forall _ _) Hy z Hz).
    + constructor; [exact IH |].
      apply Forall_forall. intros z Hz.
      apply (Permutation_in _ (insert_permutation x l)) in Hz.
      destruct Hz as [<- | Hz].
      * destruct (le_total x y) as [H | H]; [congruence | exact H].
      * apply (proj1 (Forall_forall _ _) Hy z Hz).
Qed.

Lemma sorted_ordered (l : list A) :
  StronglySorted (fun a b => le a b = true) (sorted le l).
Proof.
  induction l as [| x l IH]; cbn.
  - constructor.
  - now apply insert_ordered.
Qed.

Lemma sorted_newest_first (x : A) (l : list A) :
  (forall e, In e l -> le e x = false) ->
  exists rest, sorted le (l ++ [x]) = x :: rest.
Proof.
  unfold sorted. rewrite fold_right_app. cbn [fold_right insert].
  induction l as [| e l IH]; intros H; cbn [fold_right].
  - exists []. reflexivity.
  - destruct IH as [rest ->]; [intros e' He'; apply H; now right |].
    cbn [insert]. rewrite (H e (or_introl eq_refl)).
    eexists. reflexivity.
Qed.
End SortedBy.

Lemma later_first_total (p q : RecentProject) :
  String.leb (last_used q) (last_used p) = true
  \/ String.leb (last_used p) (last_used q) = true.
Proof. apply String.leb_total. Qed.

Lemma later_first_trans (p q r : RecentProject) :
  String.leb (last_used q) (last_used p) = true ->
  String.leb (last_used r) (last_used q) = true ->
  String.leb (last_used r) (last_used p) = true.
Proof. intros H1 H2. exact (string_leb_trans _ _ _ H2 H1). Qed.

(** The rows of the recent-project list are the registry entries, each
    as often as it is in the registry, ordered from the latest
    [last_used] to the earliest; this holds after [_populate_recent] and
    after every upsert that passes the guard on empty directories. *)
Theorem recent_list_latest_first :
  (forall w : MainWindow,
      Permutation (recent_list (_populate_recent w)) (recent_projects w)
      /\ StronglySorted
           (fun p q => String.leb (last_used q) (last_used p) = true)
           (recent_list (_populate_recent w)))
  /\ (forall (now : string) (w : MainWindow),
         truthy (strip (data_dir_edit w)) = true ->
         truthy (strip (out_dir_edit w)) = true ->
         let w' := _update_recent now w in
         Permutation (recent_list w') (recent_projects w')
         /\ StronglySorted
              (fun p q => String.leb (last_used q) (last_used p) = true)
              (recent_list w')).
Proof.
  split.
  - intros w. cbn [_populate_recent set_recent recent_list]. split.
    + apply sorted_permutation.
    + apply (sorted_ordered _ later_first_total later_first_trans).
  - intros now w Hd Ho w'. subst w'. unfold _update_recent.
    rewrite Hd, Ho. cbn [negb orb].
    cbn [_populate_recent _save_recent set_recent recent_list recent_projects].
    split.
    + apply sorted_permutation.
    + apply (sorted_ordered _ later_first_total later_first_trans).
Qed.

Lemma recent_list_latest_first_witness :
  let w := window_at_startup (fun s => s) "d2" "o2" ""
             [ {| data_dir := "d1"; out_dir := "o1";
                  karospace_html := None; last_used := "2024-01-01T10:00:00" |};
               {| data_dir := "d3"; out_dir := "o3";
                  karospace_html := None; last_used := "2024-03-01T10:00:00" |} ] in
  let w' := _update_recent "2024-02-01T10:00:00" w in
  Permutation (recent_list w') (recent_projects w')
  /\ StronglySorted
       (fun p q => String.leb (last_used q) (last_used p) = true)
       (recent_list w').
Proof.
  intros w w'.
  exact (proj2 recent_list_latest_first "2024-02-01T10:00:00" w eq_refl eq_refl).
Defined.

(** An upsert whose timestamp is later than that of every entry kept
    puts the new entry at the top of the displayed list. *)
Theorem upsert_shows_newest_first :
  forall (now : string) (w : MainWindow),
    truthy (strip (data_dir_edit w)) = true ->
    truthy (strip (out_dir_edit w)) = true ->
    (forall p, In p (without_pair w (recent_projects w)) ->
               String.ltb (last_used p) now = true) ->
    exists rest,
      recent_list (_update_recent now w) = upserted_entry now w :: rest.
Proof.
  intros now w Hd Ho Hlater. unfold _update_recent.
  rewrite Hd, Ho. cbn [negb orb].
  cbn [_populate_recent _save_recent set_recent recent_list recent_projects].
  apply sorted_newest_first. intros e He.
  specialize (Hlater e He). unfold String.ltb in Hlater. unfold String.leb.
  unfold upserted_entry. cbn [last_used]. rewrite String.compare_antisym.
  destruct (String.compare (last_used e) now); try discriminate Hlater.
  reflexivity.
Qed.

Lemma upsert_shows_newest_first_witness :
  let w := window_at_startup (fun s => s) "d2" "o2" ""
             [ {| data_dir := "d1"; out_dir := "o1";
                  karospace_html := None; last_used := "2024-01-01T10:00:00" |};
               {| data_dir := "d2"; out_dir := "o2";
                  karospace_html := None; last_used := "2024-09-01T10:00:00" |} ] in
  exists rest,
    recent_list (_update_recent "2024-02-01T10:00:00" w)
    = upserted_entry "2024-02-01T10:00:00" w :: rest.
Proof.
  intros w.
  refine (upsert_shows_newest_first "2024-02-01T10:00:00" w eq_refl eq_refl _).
  intros p Hp. vm_compute in Hp. destruct Hp as [<- | []].
  vm_compute. reflexivity.
Defined.

(** Repeating an upsert with the same clock reading changes nothing
    more: the window after the second upsert is the window after the
    first.  One upsert never lengthens the registry by more than one
    entry. *)
Theorem upsert_idempotent :
  forall (now : string) (w : MainWindow),
    _update_recent now (_update_recent now w) = _update_recent now w
    /\ (List.length (recent_projects (_update_recent now w))
        <= S (List.length (recent_projects w)))%nat.
Proof.
  intros now w.
  destruct (negb (truthy (strip (data_dir_edit w)))
            || negb (truthy (strip (out_dir_edit w)))) eqn:G.
  - unfold _update_recent. rewrite G, G. split; [reflexivity | lia].
  - apply orb_false_iff in G. destruct G as [Gd Go].
    apply negb_false_iff in Gd, Go.
    split.
    + pose proof (without_pair_after now w Gd Go) as Wo.
      pose proof (update_recent_projects now w Gd Go) as Up.
      unfold _update_recent at 1.
      destruct (update_recent_edits now w) as [Ed [Eo Ek]].
      rewrite Ed, Eo, Ek, Gd, Go. cbn [negb orb].
      unfold without_pair in Wo. rewrite Wo.
      unfold _update_recent. rewrite Gd, Go. cbn [negb orb].
      reflexivity.
    + rewrite (update_recent_projects now w Gd Go).
      rewrite length_app. cbn [List.length]. unfold without_pair.
      pose proof (filter_length_le
                    (fun p => negb (same_pair (strip (data_dir_edit w))
                                              (strip (out_dir_edit w)) p))
                    (recent_projects w)).
      lia.
Qed.

(** ** The recent-project file *)

Lemma load_items_stored (projects : list RecentProject) :
  load_items
    (map (fun p =>
            JObject [ ("data_dir", JStr (data_dir p));
                      ("out_dir", JStr (out_dir p));
                      ("karospace_html", optional_str (karospace_html p));
                      ("last_used", JStr (last_used p)) ])
         projects)
  = Got (map stored projects).
Proof.
  induction projects as [| p projects IH]; cbn [map load_items].
  - reflexivity.
  - rewrite IH. reflexivity.
Qed.

(** What [_save_recent] writes, [_load_recent] reads back entry for
    entry, in the same order, whatever the legacy file holds; two
    registries that are saved to the same document are equal. *)
Theorem recent_file_round_trip :
  forall (projects : list RecentProject) (legacy : json_file),
    _load_recent (_save_recent_file projects) legacy = Got (map stored projects)
    /\ forall projects',
        recent_payload projects = recent_payload projects' ->
        projects = projects'.
Proof.
  intros projects legacy. split.
  - unfold _save_recent_file, recent_payload, _load_recent.
    cbn [get_default dict_get String.eqb Ascii.eqb Bool.eqb iterate].
    apply load_items_stored.
  - unfold recent_payload. intros projects' E. injection E as E.
    revert projects' E.
    induction projects as [| p projects IH]; intros [| q projects'] E;
      cbn [map] in E; try discriminate E; [reflexivity |].
    injection E as Hd Ho Hk Hl E. f_equal; [| now apply IH].
    destruct p as [pd po pk pl], q as [qd qo qk ql]. cbn in *. subst.
    f_equal. destruct pk, qk; cbn in Hk; congruence.
Qed.

Lemma load_items_objects (items : list json) :
  Forall (fun item => exists f, item = JObject f) items ->
  exists projects,
    load_items items = Got projects
    /\ List.length projects = List.length items.
Proof.
  induction 1 as [| item items [f ->] _ [projects [E L]]]; cbn [load_items].
  - exists []. split; reflexivity.
  - cbn [load_item]. rewrite E. eexists. split; [reflexivity |].
    cbn [List.length]. now rewrite L.
Qed.

(** The file at the current path is the one read whenever it exists:
    an unreadable current file gives the empty list even beside a good
    legacy file, and the legacy file is read only when the current one
    is missing.  No file, or an unreadable one, gives the empty list.  A
    document that is an object with a list of objects under [projects],
    or with no such entry, gives one entry per object, a missing field
    being read as the empty string (as [None] for the export path); a
    document that is not an object raises. *)
Theorem load_recent_sources :
  (forall legacy : json_file, _load_recent Unparsable legacy = Got [])
  /\ (forall (payload : json) (legacy : json_file),
         _load_recent (Parsed payload) legacy
         = _load_recent (Parsed payload) Missing)
  /\ (forall legacy : json_file,
         _load_recent Missing legacy = _load_recent legacy Missing)
  /\ _load_recent Missing Missing = Got []
  /\ (forall (payload : json) (legacy : json_file),
         well_formed_registry payload ->
         exists projects,
           _load_recent (Parsed payload) legacy = Got projects
           /\ forall fields,
               payload = JObject fields ->
               List.length projects
               = match dict_get "projects" fields with
                 | Some (JList items) => List.length items
                 | _ => 0%nat
                 end)
  /\ (forall legacy : json_file,
         _load_recent (Parsed (JObject [("projects", JList [JObject []])])) legacy
         = Got [ {| stored_data_dir := JStr EmptyString;
                    stored_out_dir := JStr EmptyString;
                    stored_karospace_html := JNull;
                    stored_last_used := JStr EmptyString |} ])
  /\ (forall (payload : json) (legacy : json_file),
         (forall fields, payload <> JObject fields) ->
         _load_recent (Parsed payload) legacy = Threw Attribute_error).
Proof.
  split; [reflexivity |]. split; [reflexivity |].
  split; [intros [| | payload]; reflexivity |].
  split; [reflexivity |].
  split; [| split; [reflexivity |]].
  - intros payload legacy [fields [-> [Hnone | [items [Hsome Hall]]]]].
    + exists []. unfold _load_recent, get_default. rewrite Hnone.
      split; [reflexivity |]. intros fields' E. injection E as <-.
      now rewrite Hnone.
    + destruct (load_items_objects items Hall) as [projects [E L]].
      exists projects. unfold _load_recent, get_default. rewrite Hsome.
      cbn [iterate]. split; [exact E |].
      intros fields' E'. injection E' as <-. now rewrite Hsome.
  - intros payload legacy H.
    destruct payload; try reflexivity. exfalso. now apply (H fields).
Qed.

Lemma load_recent_sources_witness :
  exists projects,
    _load_recent
      (Parsed (JObject [("projects",
                         JList [JObject [("data_dir", JStr "d1")]; JObject []])]))
      Unparsable = Got projects
    /\ forall fields,
        JObject [("projects",
                  JList [JObject [("data_dir", JStr "d1")]; JObject []])]
        = JObject fields ->
        List.length projects
        = match dict_get "projects" fields with
          | Some (JList items) => List.length items
          | _ => 0%nat
          end.
Proof.
  refine (proj1 (proj2 (proj2 (proj2 (proj2 load_recent_sources)))) _ Unparsable _).
  eexists. split; [reflexivity |]. right. eexists. split; [reflexivity |].
  repeat constructor; eexists; reflexivity.
Defined.

(** ** The key menus *)

Lemma add_key_In (keys : list string) (text k : string) :
  In k (add_key keys text) <-> In k keys \/ (k = text /\ truthy text = true).
Proof.
  unfold add_key. destruct (truthy text) eqn:Ht; cbn [andb].
  - destruct (mem text keys) eqn:Hm; cbn [negb].
    + apply mem_In in Hm. split; [tauto |].
      intros [H | [-> _]]; assumption.
    + rewrite in_app_iff. cbn [In]. split.
      * intros [H | [<- | []]]; [now left | now right].
      * intros [H | [-> _]]; [now left | right; now left].
  - split; [tauto |]. intros [H | [_ H]]; [exact H | discriminate H].
Qed.

Lemma add_key_distinct (keys : list string) (text : string) :
  NoDup keys -> NoDup (add_key keys text).
Proof.
  intros H. unfold add_key.
  destruct (truthy text && negb (mem text keys)) eqn:E; [| exact H].
  apply andb_true_iff in E. destruct E as [_ E]. apply negb_true_iff in E.
  apply (Permutation_NoDup (l := text :: keys)).
  - apply Permutation_cons_append.
  - constructor; [| exact H]. intros Hin. apply mem_In in Hin. congruence.
Qed.

Lemma add_key_nonblank (keys : list string) (text : string) :
  (forall k, In k keys -> truthy k = true) ->
  forall k, In k (add_key keys text) -> truthy k = true.
Proof.
  intros H k Hk. apply add_key_In in Hk.
  destruct Hk as [Hk | [-> Hk]]; [now apply H | exact Hk].
Qed.

Section KeyFolds.
Variable str_other : json -> string.

Lemma fold_add_key_In {A : Type} (f : A -> string) (xs : list A) :
  forall keys k,
    In k (fold_left (fun keys x => add_key keys (f x)) xs keys)
    <-> In k keys \/ (truthy k = true /\ exists x, In x xs /\ f x = k).
Proof.
  induction xs as [| x xs IH]; intros keys k; cbn [fold_left].
  - split; [tauto |]. intros [H | [_ [x [[] _]]]]. exact H.
  - rewrite IH, add_key_In. split.
    + intros [[H | [-> Ht]] | [Ht [y [Hy E]]]].
      * now left.
      * right. split; [exact Ht |]. exists x. split; [now left | reflexivity].
      * right. split; [exact Ht |]. exists y. split; [now right | exact E].
    + intros [H | [Ht [y [[<- | Hy] E]]]].
      * left. now left.
      * left. right. subst k. split; [reflexivity | exact Ht].
      * right. split; [exact Ht |]. exists y. split; assumption.
Qed.

Lemma fold_add_key_good {A : Type} (f : A -> string) (xs : list A) :
  forall keys,
    NoDup keys -> (forall k, In k keys -> truthy k = true) ->
    NoDup (fold_left (fun keys x => add_key keys (f x)) xs keys)
    /\ forall k,
        In k (fold_left (fun keys x => add_key keys (f x)) xs keys) ->
        truthy k = true.
Proof.
  induction xs as [| x xs IH]; intros keys Hn Ht; cbn [fold_left].
  - split; assumption.
  - apply IH; [now apply add_key_distinct | now apply add_key_nonblank].
Qed.

Lemma fold_add_source_In (sources : list (option json)) :
  forall keys k,
    In k (fold_left (add_source str_other) sources keys)
    <-> In k keys \/ offered str_other sources k.
Proof.
  unfold offered.
  induction sources as [| source sources IH]; intros keys k; cbn [fold_left].
  - split; [tauto |]. intros [H | [_ [s [key [[] _]]]]]. exact H.
  - rewrite IH. unfold add_source. rewrite fold_add_key_In. split.
    + intros [[H | [Ht [key [Hk E]]]] | [Ht [s [key [Hs [Hk E]]]]]].
      * now left.
      * right. split; [exact Ht |]. exists source, key.
        split; [now left |]. split; assumption.
      * right. split; [exact Ht |]. exists s, key.
        split; [now right |]. split; assumption.
    + intros [H | [Ht [s [key [[<- | Hs] [Hk E]]]]]].
      * left. now left.
      * left. right. split; [exact Ht |]. exists key. split; assumption.
      * right. split; [exact Ht |]. exists s, key. repeat split; assumption.
Qed.

Lemma fold_add_source_good (sources : list (option json)) :
  forall keys,
    NoDup keys -> (forall k, In k keys -> truthy k = true) ->
    NoDup (fold_left (add_source str_other) sources keys)
    /\ forall k,
        In k (fold_left (add_source str_other) sources keys) ->
        truthy k = true.
Proof.
  induction sources as [| source sources IH]; intros keys Hn Ht; cbn [fold_left].
  - split; assumption.
  - destruct (fold_add_key_good (key_text str_other)
                (source_candidates source) keys Hn Ht) as [Hn' Ht'].
    now apply IH.
Qed.

Lemma ordered_sources_object (fields : list (string * json))
  (names : list string) :
  ordered_sources (JObject fields) names
  = Ok (map (fun name => dict_get name fields) names).
Proof.
  induction names as [| name names IH]; cbn [ordered_sources map].
  - reflexivity.
  - cbn [payload_get bind]. rewrite IH. reflexivity.
Qed.

Lemma ordered_sources_other (payload : json) (names : list string)
  (sources : list (option json)) :
  names <> [] ->
  ordered_sources payload names = Ok sources ->
  exists fields, payload = JObject fields.
Proof.
  destruct names as [| name names]; [contradiction |]. intros _.
  cbn [ordered_sources]. destruct payload; cbn; try discriminate.
  intros _. eexists. reflexivity.
Qed.

Lemma menu_keys_good (names : list string) (info : cluster_info)
  (keys : list string) :
  menu_keys str_other names info = Ok keys ->
  NoDup keys /\ forall k, In k keys -> truthy k = true.
Proof.
  unfold menu_keys. destruct (menu_payload info) as [payload |].
  - destruct (ordered_sources payload names) as [sources | e]; cbn [bind];
      [| discriminate].
    intros H. injection H as <-.
    apply fold_add_source_good; [constructor | intros k []].
  - intros H. injection H as <-. split; [constructor | intros k []].
Qed.

Lemma compartment_keys_good (payload : json) (keys : list string) :
  compartment_keys str_other payload = Ok keys ->
  NoDup keys /\ forall k, In k keys -> truthy k = true.
Proof.
  unfold compartment_keys.
  destruct (payload_get payload "compartment_keys") as [raw | e]; cbn [bind];
    [| discriminate].
  destruct (payload_get payload "compartment_key") as [primary | e];
    cbn [bind]; [| discriminate].
  set (listed := match raw with
                 | Some (JList items) => _
                 | _ => []
                 end).
  assert (Hl : NoDup listed /\ forall k, In k listed -> truthy k = true).
  { subst listed. destruct raw as [[| | | | | items |] |];
      try (split; [constructor | intros k []]).
    apply (fold_add_key_good (fun key => strip (py_str str_other key)));
      [constructor | intros k []]. }
  destruct Hl as [Hn Ht].
  destruct (truthy (key_text str_other primary)
            && negb (mem (key_text str_other primary) listed)) eqn:E;
    intros H; injection H as <-.
  - apply andb_true_iff in E. destruct E as [E1 E2].
    apply negb_true_iff in E2. split.
    + constructor; [| exact Hn]. intros Hin. apply mem_In in Hin. congruence.
    + intros k [<- | Hk]; [exact E1 | now apply Ht].
  - split; assumption.
Qed.

End KeyFolds.

Lemma fill_combo_menu (auto_text : string) (keys : list string) :
  NoDup keys -> (forall k, In k keys -> truthy k = true) ->
  menu_of auto_text keys (fill_combo auto_text keys).
Proof.
  intros Hn Ht. unfold menu_of, fill_combo. cbn.
  split; [reflexivity |]. split; [now destruct keys |]. split; assumption.
Qed.

(** Each of the four key menus, when it can be filled, holds the
    automatic row followed by one row per key; the keys are distinct,
    none is blank, and the menu is enabled exactly when there is a key.
    Without a metadata file, or with one that does not parse, only the
    automatic row is there and the menu is disabled. *)
Theorem key_menus_distinct_nonblank :
  forall (str_other : json -> string) (info : cluster_info) (combo : QComboBox),
    (_refresh_spatial_keys str_other info = Ok combo ->
     exists keys, menu_of "Auto (cluster key)" keys combo)
    /\ (_refresh_umap_keys str_other info = Ok combo ->
        exists keys, menu_of "Auto (cluster key)" keys combo)
    /\ (_refresh_gene_expression_keys str_other info = Ok combo ->
        exists keys, menu_of "Auto (cluster key)" keys combo)
    /\ (_refresh_compartment_keys str_other info = Ok combo ->
        exists keys, menu_of "Auto (primary)" keys combo)
    /\ (info = Absent \/ info = Malformed ->
        _refresh_spatial_keys str_other info
        = Ok {| combo_items := [("Auto (cluster key)", EmptyString)];
                combo_enabled := false |}
        /\ _refresh_compartment_keys str_other info
           = Ok {| combo_items := [("Auto (primary)", EmptyString)];
                   combo_enabled := false |}).
Proof.
  intros str_other info combo.
  assert (Hgen : forall names,
             (keys <- menu_keys str_other names info ;;
              Ok (fill_combo "Auto (cluster key)" keys)) = Ok combo ->
             exists keys, menu_of "Auto (cluster key)" keys combo).
  { intros names.
    destruct (menu_keys str_other names info) as [keys | e] eqn:E;
      cbn [bind]; [| discriminate].
    intros H. injection H as <-. exists keys.
    destruct (menu_keys_good str_other names info keys E) as [Hn Ht].
    now apply fill_combo_menu. }
  split; [apply Hgen |]. split; [apply Hgen |]. split; [apply Hgen |].
  split.
  - unfold _refresh_compartment_keys.
    destruct (menu_payload info) as [payload |].
    + destruct (compartment_keys str_other payload) as [keys | e] eqn:E;
        cbn [bind]; [| discriminate].
      intros H. injection H as <-. exists keys.
      destruct (compartment_keys_good str_other payload keys E) as [Hn Ht].
      now apply fill_combo_menu.
    + cbn [bind]. intros H. injection H as <-. exists [].
      apply fill_combo_menu; [constructor | intros k []].
  - intros [-> | ->]; split; reflexivity.
Qed.

Lemma key_menus_distinct_nonblank_witness :
  exists keys,
    menu_of "Auto (cluster key)" keys
      {| combo_items := [("Auto (cluster key)", EmptyString);
                         ("leiden_1", "leiden_1"); ("region", "region")];
         combo_enabled := true |}.
Proof.
  refine (proj1 (key_menus_distinct_nonblank (fun _ => "None")
                   (Loaded (JObject [("cluster_key", JStr " leiden_1 ");
                                     ("cluster_keys", JList [JStr "leiden_1"; JNull]);
                                     ("compartment_keys", JList [JStr "region"])]))
                   _) _).
  reflexivity.
Defined.

Lemma menu_sources_same (fields : list (string * json)) (source : option json) :
  In source (map (fun name => dict_get name fields) spatial_key_names)
  <-> In source (map (fun name => dict_get name fields) umap_key_names).
Proof. cbn [map In spatial_key_names umap_key_names]. tauto. Qed.

(** The spatial menu and the UMAP menu (and with it the dotplot menu)
    read the four metadata fields in different orders, and still offer
    the same keys: one list is a rearrangement of the other; and one
    raises exactly when the other does. *)
Theorem spatial_and_umap_menus_offer_same_keys :
  forall (str_other : json -> string) (info : cluster_info),
    match menu_keys str_other spatial_key_names info,
          menu_keys str_other umap_key_names info with
    | Ok spatial_keys, Ok umap_keys => Permutation spatial_keys umap_keys
    | Raise e, Raise e' => e = e'
    | _, _ => False
    end.
Proof.
  intros str_other [| | payload]; try (cbn; constructor).
  destruct payload; try reflexivity.
  unfold menu_keys. cbn [menu_payload].
  rewrite !ordered_sources_object. cbn [bind].
  set (s1 := map (fun name => dict_get name fields) spatial_key_names).
  set (s2 := map (fun name => dict_get name fields) umap_key_names).
  destruct (fold_add_source_good str_other s1 [] (NoDup_nil _)
              (fun k (H : In k []) => match H with end)) as [N1 _].
  destruct (fold_add_source_good str_other s2 [] (NoDup_nil _)
              (fun k (H : In k []) => match H with end)) as [N2 _].
  apply NoDup_Permutation; [exact N1 | exact N2 |].
  intros k. rewrite !fold_add_source_In. unfold offered.
  split; intros [[] | [Ht [source [key [Hs H]]]]]; right;
    (split; [exact Ht |]); exists source, key;
    (split; [now apply menu_sources_same | exact H]).
Qed.

(** The compartment menu always offers the primary compartment key when
    it is not blank: as its first key, or else where it stands among
    the keys listed under [compartment_keys]. *)
Theorem compartment_menu_offers_primary_key :
  forall (str_other : json -> string) (fields : list (string * json))
         (keys : list string),
    compartment_keys str_other (JObject fields) = Ok keys ->
    let primary := key_text str_other (dict_get "compartment_key" fields) in
    truthy primary = true ->
    In primary keys
    /\ (hd_error keys = Some primary
        \/ exists items item,
            dict_get "compartment_keys" fields = Some (JList items)
            /\ In item items
            /\ strip (py_str str_other item) = primary).
Proof.
  intros str_other fields keys H primary Ht. subst primary.
  unfold compartment_keys in H. cbn [payload_get bind] in H.
  rewrite Ht in H. cbn [andb] in H.
  set (primary := key_text str_other (dict_get "compartment_key" fields)) in *.
  destruct (dict_get "compartment_keys" fields) as [[| | | | | items |] |];
    cbn [mem existsb negb] in H;
    try (injection H as <-; split; [now left | left; reflexivity]).
  match type of H with
  | Ok (if negb (mem primary ?l) then _ else _) = _ => set (listed := l) in *
  end.
  destruct (mem primary listed) eqn:Hm; cbn [negb] in H; injection H as <-.
  - apply mem_In in Hm. split; [exact Hm |]. right.
    subst listed. apply fold_add_key_In in Hm.
    destruct Hm as [[] | [_ [item [Hi E]]]].
    exists items, item. repeat split; assumption.
  - split; [now left | left; reflexivity].
Qed.

Lemma compartment_menu_offers_primary_key_witness :
  In "region"
     ["niche"; "region"]
  /\ (hd_error ["niche"; "region"] = Some "region"
      \/ exists items item,
          dict_get "compartment_keys"
            [("compartment_keys", JList [JStr "niche"; JStr "region "]);
             ("compartment_key", JStr "region")]
          = Some (JList items)
          /\ In item items
          /\ strip (py_str (fun _ => "None") item) = "region").
Proof.
  exact (compartment_menu_offers_primary_key (fun _ => "None")
           [("compartment_keys", JList [JStr "niche"; JStr "region "]);
            ("compartment_key", JStr "region")]
           ["niche"; "region"] eq_refl eq_refl).
Defined.

(** ** What [_infer_default_color] raises, and the keys of the plot
    commands *)

Lemma collect_candidates_other (str_other : json -> string)
  (payload : json) (preferred_key : option string) :
  (forall fields, payload <> JObject fields) ->
  collect_candidates str_other payload preferred_key = Raise AttributeError.
Proof.
  intros H. unfold collect_candidates, preferred_candidates.
  destruct payload; try (exfalso; now apply (H fields));
    destruct preferred_key as [pk |]; cbn [payload_get bind];
    try destruct (truthy pk); reflexivity.
Qed.

Lemma infer_returns_or_raises (str_other : json -> string)
  (columns : list string) (info : cluster_info) (fallback : string)
  (preferred_key : option string) :
  (well_formed info
   /\ exists k,
       _infer_default_color str_other columns info fallback preferred_key = Ok k
       /\ (columns <> [] -> In k columns)
       /\ (columns = [] -> k = fallback))
  \/ (~ well_formed info
      /\ _infer_default_color str_other columns info fallback preferred_key
         = Raise AttributeError).
Proof.
  destruct (infer_from_columns_member columns fallback) as [k0 [E0 [Hin0 Hfb0]]].
  assert (Hok : forall r,
             metadata_key str_other columns info preferred_key = Ok r ->
             exists k,
               _infer_default_color str_other columns info fallback preferred_key
               = Ok k
               /\ (columns <> [] -> In k columns)
               /\ (columns = [] -> k = fallback)).
  { intros r Hr. unfold _infer_default_color. rewrite Hr. cbn [bind].
    destruct r as [mk |]; [| exists k0; now rewrite E0].
    destruct (truthy mk && mem mk columns) eqn:Hc;
      [| exists k0; now rewrite E0].
    exists mk. split; [reflexivity |].
    pose proof (metadata_key_member str_other columns info preferred_key mk Hr)
      as Hin.
    split; [intros _; exact Hin |]. intros ->. contradiction. }
  destruct info as [| | payload].
  - left. split; [exact I |]. now apply (Hok None).
  - left. split; [exact I |]. now apply (Hok None).
  - destruct payload;
      try (right; split; [intros [] |];
           unfold _infer_default_color, metadata_key;
           rewrite collect_candidates_other by (intros ? ?; discriminate);
           reflexivity).
    left. split; [exact I |].
    destruct (metadata_key_total str_other columns (Loaded (JObject fields))
                preferred_key I) as [r Hr].
    now apply (Hok r).
Qed.


(** An explicit, non-blank key is used as it is by the three map
    commands and the inference is not run: not even a metadata file that
    would make the inference raise is looked at.  The dotplot command
    accepts an explicit key exactly when it is a column and otherwise
    fails with a [ValueError] naming the key. *)
Theorem explicit_key_bypasses_inference :
  forall (str_other : json -> string) (columns : list string)
         (info : cluster_info) (key : string),
    truthy key = true ->
    compartment_color_key str_other columns info (Some key) = Fine key
    /\ spatial_color_key str_other columns info (Some key) = Fine key
    /\ (forall obsm_keys,
           In "X_umap" obsm_keys ->
           umap_color_key str_other obsm_keys columns info (Some key) = Fine key)
    /\ (In key columns ->
        dotplot_groupby_key str_other columns info (Some key) = Fine key)
    /\ (~ In key columns ->
        dotplot_groupby_key str_other columns info (Some key)
        = Fails (ValueError ("Groupby key '" ++ key
                             ++ "' not found in adata.obs."))).
Proof.
  intros str_other columns info key Ht.
  unfold compartment_color_key, spatial_color_key, umap_color_key,
    dotplot_groupby_key, choice_or.
  rewrite Ht. cbn [of_result].
  split; [reflexivity |]. split; [reflexivity |]. split; [| split].
  - intros obsm_keys H. apply mem_In in H. now rewrite H.
  - intros H. apply mem_In in H. now rewrite H.
  - intros H. destruct (mem key columns) eqn:Hm; [| reflexivity].
    apply mem_In in Hm. contradiction.
Qed.

Lemma explicit_key_bypasses_inference_witness :
  compartment_color_key (fun _ => "None") ["region"] (Loaded (JList []))
    (Some "niche") = Fine "niche"
  /\ dotplot_groupby_key (fun _ => "None") ["region"] (Loaded (JList []))
       (Some "niche")
     = Fails (ValueError "Groupby key 'niche' not found in adata.obs.").
Proof.
  destruct (explicit_key_bypasses_inference (fun _ => "None") ["region"]
              (Loaded (JList [])) "niche" eq_refl) as [E1 [_ [_ [_ E5]]]].
  split; [exact E1 |]. apply E5.
  intros [H | []]. discriminate H.
Defined.

(** Without an explicit key, the dotplot command finds its grouping key
    by inference, and with a usable metadata file and at least one
    column the key it finds passes the column check: the command does
    not fail on a missing key.  With no column at all it fails with a
    [ValueError] on the fallback [leiden]. *)
Theorem dotplot_inferred_key_is_accepted :
  forall (str_other : json -> string) (columns : list string)
         (info : cluster_info),
    well_formed info ->
    (columns <> [] ->
     exists key,
       dotplot_groupby_key str_other columns info None = Fine key
       /\ In key columns)
    /\ (columns = [] ->
        dotplot_groupby_key str_other columns info None
        = Fails (ValueError "Groupby key 'leiden' not found in adata.obs.")).
Proof.
  intros str_other columns info Hwf.
  destruct (infer_returns_or_raises str_other columns info "leiden"
              (Some "cluster_keys"))
    as [[_ [k [Hk [Hin Hfb]]]] | [Hnot _]]; [| contradiction].
  unfold dotplot_groupby_key, choice_or. rewrite Hk. split.
  - intros Hne. exists k. specialize (Hin Hne).
    pose proof (proj2 (mem_In k columns) Hin) as Hm. rewrite Hm.
    split; [reflexivity | exact Hin].
  - intros ->. rewrite (Hfb eq_refl). reflexivity.
Qed.

Lemma dotplot_inferred_key_is_accepted_witness :
  exists key,
    dotplot_groupby_key (fun _ => "None") ["sample_id"; "leiden_0.5"]
      Malformed None = Fine key
    /\ In key ["sample_id"; "leiden_0.5"].
Proof.
  refine (proj1 (dotplot_inferred_key_is_accepted (fun _ => "None")
                   ["sample_id"; "leiden_0.5"] Malformed I) _).
  discriminate.
Defined.

(** The spatial map is grouped by [sample_id] when that is a column,
    else by [run] when that is one, else by the first column; so the
    grouping key is always a column unless there is no column at all,
    where it is [run]. *)
Theorem spatial_groupby_key_is_a_column :
  forall columns : list string,
    (columns <> [] -> In (spatial_groupby_key columns) columns)
    /\ (In "sample_id" columns -> spatial_groupby_key columns = "sample_id")
    /\ (~ In "sample_id" columns -> In "run" columns ->
        spatial_groupby_key columns = "run")
    /\ (~ In "sample_id" columns -> ~ In "run" columns ->
        spatial_groupby_key columns
        = match columns with
          | c :: _ => c
          | [] => "run"
          end).
Proof.
  intros columns. unfold spatial_groupby_key.
  destruct (mem "sample_id" columns) eqn:Hs.
  - rewrite Hs. cbn [negb andb]. apply mem_In in Hs.
    repeat split; intros; try assumption; try contradiction; reflexivity.
  - assert (Hns : ~ In "sample_id" columns)
      by (intros H; apply mem_In in H; congruence).
    destruct (mem "run" columns) eqn:Hr; cbn [negb andb].
    + apply mem_In in Hr.
      repeat split; intros; try assumption; try contradiction; reflexivity.
    + assert (Hnr : ~ In "run" columns)
        by (intros H; apply mem_In in H; congruence).
      destruct columns as [| c columns]; cbn [andb];
        repeat split; intros; try contradiction; try reflexivity.
      now left.
Qed.

Lemma spatial_groupby_key_is_a_column_witness :
  In (spatial_groupby_key ["batch"; "leiden_1"]) ["batch"; "leiden_1"].
Proof.
  apply (proj1 (spatial_groupby_key_is_a_column ["batch"; "leiden_1"])).
  discriminate.
Defined.

(** ** Starting a run *)

Lemma run_pipeline_guards_blank :
  forall (sys_executable script : string) (resolve : string -> Path)
         (user : QMessageBox -> StandardButton) (form : RunForm)
         (fs : filesystem) (w : MainWindow),
    truthy (strip (data_dir_edit w)) = false
    \/ truthy (strip (out_dir_edit w)) = false ->
    run_ui user (_run_pipeline sys_executable script resolve form fs w)
    = (Warned "Missing paths" "Please set data and output directories.", []).
Proof.
  intros sys_executable script resolve user form fs w H.
  unfold _run_pipeline. destruct H as [H | H]; rewrite H; cbn [negb orb];
    [| rewrite orb_true_r]; reflexivity.
Qed.

Section RunGuards.
Variable sys_executable : string.
Variable script : string.
Variable resolve : string -> Path.

Lemma karospace_args_frame (form : RunForm) (out_dir_path : Path)
  (w : MainWindow) :
  let w1 := snd (fst (karospace_args resolve form out_dir_path w)) in
  busy w1 = busy w
  /\ log_view w1 = log_view w
  /\ top_run_btn_enabled w1 = top_run_btn_enabled w
  /\ recent_projects w1 = recent_projects w
  /\ data_dir_edit w1 = data_dir_edit w
  /\ out_dir_edit w1 = out_dir_edit w.
Proof.
  unfold karospace_args. destruct (karospace_check form); [| repeat split].
  destruct (truthy (strip (karospace_path_edit w))); repeat split.
Qed.

(** [_run_pipeline] starts a job only when the data and the output
    directory are both filled in and, when the custom MANA representation
    is selected, its key is filled in too; the argument vector then
    begins with the interpreter, the script and the two directories, the
    job counter is one higher and the run button is disabled.  A missing
    directory or a missing custom key ends in a warning, before any
    overwrite prompt is shown.  A declined run leaves the tracker and
    the run button as they were. *)
Theorem run_pipeline_guards :
  forall (user : QMessageBox -> StandardButton) (form : RunForm)
         (fs : filesystem) (w : MainWindow),
    let done := run_ui user (_run_pipeline sys_executable script resolve form fs w) in
    match fst done with
    | Started args w' =>
        truthy (strip (data_dir_edit w)) = true
        /\ truthy (strip (out_dir_edit w)) = true
        /\ (mana_check form = true -> mana_rep_mode form = "custom" ->
            truthy (strip (mana_custom_rep_edit form)) = true)
        /\ firstn 7 args
           = [ sys_executable; "-u"; script;
               "--data-dir"; strip (data_dir_edit w);
               "--out-dir"; strip (out_dir_edit w) ]
        /\ _busy_counter (busy w') = (_busy_counter (busy w) + 1)%Z
        /\ status_chip (busy w') = "Running"
        /\ top_run_btn_enabled w' = false
    | Warned title message =>
        snd done = []
        /\ (truthy (strip (data_dir_edit w)) = false
            \/ truthy (strip (out_dir_edit w)) = false
            \/ (mana_check form = true
                /\ mana_rep_mode form = "custom"
                /\ truthy (strip (mana_custom_rep_edit form)) = false))
    | Declined w' =>
        busy w' = busy w
        /\ top_run_btn_enabled w' = top_run_btn_enabled w
        /\ recent_projects w' = recent_projects w
        /\ exists box, snd done = [box] /\ user box = No
    end
    /\ (truthy (strip (data_dir_edit w)) = false
        \/ truthy (strip (out_dir_edit w)) = false ->
        done = (Warned "Missing paths" "Please set data and output directories.",
                [])).
Proof.
  intros user form fs w done. subst done.
  split; [| apply run_pipeline_guards_blank].
  unfold _run_pipeline.
  destruct (truthy (strip (data_dir_edit w))) eqn:Hd; cbn [negb orb];
    [| cbn; split; [reflexivity | now left]].
  destruct (truthy (strip (out_dir_edit w))) eqn:Ho; cbn [negb orb];
    [| cbn; split; [reflexivity | right; now left]].
  assert (Hmana : match mana_args form with
                  | None => mana_check form = true
                            /\ mana_rep_mode form = "custom"
                            /\ truthy (strip (mana_custom_rep_edit form)) = false
                  | Some _ => mana_check form = true ->
                              mana_rep_mode form = "custom" ->
                              truthy (strip (mana_custom_rep_edit form)) = true
                  end).
  { unfold mana_args. destruct (mana_check form); [| discriminate].
    destruct (String.eqb_spec (mana_rep_mode form) "custom") as [E | E].
    - destruct (truthy (strip (mana_custom_rep_edit form))); auto.
    - intros _ E'. contradiction. }
  destruct (mana_args form) as [mana |];
    [| cbn; split; [reflexivity | right; right; exact Hmana]].
  pose proof (karospace_args_frame form (resolve (strip (out_dir_edit w))) w)
    as Hk.
  destruct (karospace_args resolve form (resolve (strip (out_dir_edit w))) w)
    as [[karospace_path_obj w1] karospace].
  cbn [fst snd] in Hk. destruct Hk as [K1 [K2 [K3 [K4 [K5 K6]]]]].
  destruct (_collect_existing_pipeline_outputs fs
              (resolve (strip (out_dir_edit w))) karospace_path_obj)
    as [| p paths].
  - cbn. rewrite K1. repeat split; try assumption.
  - cbn.
    match goal with |- context [user ?b] => destruct (user b) eqn:U end; cbn.
    + rewrite K1. repeat split; try assumption.
    + rewrite K1, K3, K4. repeat split. eexists. split; [reflexivity | exact U].
Qed.

End RunGuards.


Lemma run_pipeline_guards_witness :
  let form :=
    {| run_prefix_edit := "  ";
       run_search_depth_combo := "1";
       sample_id_source_combo := "auto";
       count_matrix_mode_combo := "cell_feature_matrix";
       n_neighbors_spin := 15;
       n_pcs_spin := 30;
       umap_min_dist_spin := "0.3";
       cluster_graph_mode_combo := "auto";
       cluster_method_combo := "leiden";
       leiden_res_edit := EmptyString;
       louvain_res_edit := "0.5";
       kmeans_clusters_edit := "8";
       kmeans_random_state_spin := 0;
       kmeans_n_init_spin := 10;
       tx_max_distance_spin := "5.0";
       tx_nucleus_distance_key_edit := EmptyString;
       tx_allowed_categories_edit := EmptyString;
       mana_check := true;
       mana_layers := 3;
       mana_hop_decay := "0.5";
       mana_kernel := "gaussian";
       mana_rep_mode := "custom";
       mana_custom_rep_edit := "  ";
       karospace_check := true |} in
  run_ui (fun _ => Yes)
         (_run_pipeline "python" "run_xenium_analysis.py"
            (fun text => [text]) form (fun _ => true)
            (window_at_startup (fun s => s) EmptyString "out" EmptyString []))
  = (Warned "Missing paths" "Please set data and output directories.", []).
Proof.
  intros form.
  apply (proj2 (run_pipeline_guards "python" "run_xenium_analysis.py"
                  (fun text => [text]) (fun _ => Yes) form (fun _ => true)
                  (window_at_startup (fun s => s) EmptyString "out"
                     EmptyString []))).
  left. reflexivity.
Defined.

(** ** Picking a recent project *)



(** ** Instances *)

Lemma busy_timer_and_status_follow_counter_witness :
  status_chip (busy_run [Enter "A"; Leave true; Enter "B"; Tick]
                        (initial_busy (fun s => s))) = "Running".
Proof.
  apply (proj1 (proj2 (proj2 (busy_timer_and_status_follow_counter
                                (fun s => s)
                                [Enter "A"; Leave true; Enter "B"; Tick])))).
  vm_compute. reflexivity.
Defined.

Lemma recent_file_round_trip_witness :
  [ {| data_dir := "d1"; out_dir := "o1";
       karospace_html := None; last_used := "t1" |} ]
  = [ {| data_dir := "d1"; out_dir := "o1";
         karospace_html := None; last_used := "t1" |} ].
Proof.
  exact (proj2 (recent_file_round_trip
                  [ {| data_dir := "d1"; out_dir := "o1";
                       karospace_html := None; last_used := "t1" |} ]
                  Missing)
           [ {| data_dir := "d1"; out_dir := "o1";
                karospace_html := None; last_used := "t1" |} ]
           eq_refl).
Defined.


(** ** The theme *)

Lemma detect_system_theme_values (look : SystemLook) :
  _detect_system_theme look = "light" \/ _detect_system_theme look = "dark".
Proof.
  unfold _detect_system_theme.
  destruct (app_present look); cbn [negb]; [| now left].
  destruct (has_color_scheme look), (color_scheme look);
    try (now left); try (now right);
    destruct (window_lightness look <? 128)%Z; auto.
Qed.

Lemma system_change_after_override (look : SystemLook) (files : ThemeFiles)
  (st : ThemeState) :
  _manual_theme_override st = true ->
  _on_system_color_scheme_changed look files st = st.
Proof.
  intros H. unfold _on_system_color_scheme_changed. now rewrite H.
Qed.

Lemma system_changes_after_override (app : SystemLook) (files : ThemeFiles)
  (events : list theme_event) :
  forall st,
    _manual_theme_override st = true ->
    forallb is_system_change events = true ->
    theme_run app files events st = st.
Proof.
  unfold theme_run.
  induction events as [| e events IH]; intros st Ho Hs; cbn [fold_left].
  - reflexivity.
  - cbn [forallb] in Hs. apply andb_true_iff in Hs. destruct Hs as [He Hs].
    destruct e as [checked | look]; [discriminate He |].
    cbn [theme_step]. rewrite (system_change_after_override look files st Ho).
    now apply IH.
Qed.

Lemma toggle_theme_state (look : SystemLook) (files : ThemeFiles)
  (checked : bool) (st : ThemeState) :
  let st' := _toggle_theme look files checked st in
  _theme_mode st' = (if checked then "dark" else "light")
  /\ _manual_theme_override st' = true
  /\ toggle_checked st' = checked
  /\ (app_present look = true ->
      (if checked then dark_exists files else light_exists files) = true ->
      style_sheet st' = Some (if checked then "dark" else "light")
      /\ toggle_text st' = (if checked then "Light" else "Dark")).
Proof.
  unfold _toggle_theme, _apply_theme.
  destruct checked; cbn [String.eqb Ascii.eqb Bool.eqb orb andb _theme_mode];
    destruct (app_present look); cbn [negb orb];
    match goal with
    | |- context [negb ?b] => destruct b
    | _ => idtac
    end; cbn; repeat split; intros; try discriminate; try reflexivity.
Qed.

(** Once the user has clicked the theme button, changes of the system
    colour scheme no longer change anything: after any history, a click
    followed by system changes only leaves the theme in the mode that
    was clicked, with the override set, the button in the clicked state
    and, when the application and the theme file exist, that file's
    style sheet in force under a button labelled with the other mode.
    Before any click a system change sets the mode that
    [_detect_system_theme] reports, which is always light or dark. *)
Theorem theme_follows_last_manual_choice :
  forall (app : SystemLook) (files : ThemeFiles)
         (before after : list theme_event) (checked : bool) (st : ThemeState),
    forallb is_system_change after = true ->
    let final := theme_run app files (before ++ Toggled checked :: after) st in
    _theme_mode final = (if checked then "dark" else "light")
    /\ _manual_theme_override final = true
    /\ toggle_checked final = checked
    /\ (app_present app = true ->
        (if checked then dark_exists files else light_exists files) = true ->
        style_sheet final = Some (if checked then "dark" else "light")
        /\ toggle_text final = (if checked then "Light" else "Dark"))
    /\ (forall look,
           _manual_theme_override st = false ->
           _theme_mode (_on_system_color_scheme_changed look files st)
           = _detect_system_theme look
           /\ (_detect_system_theme look = "light"
               \/ _detect_system_theme look = "dark")).
Proof.
  intros app files before after checked st Hs final. subst final.
  unfold theme_run. rewrite fold_left_app. cbn [fold_left theme_step].
  set (mid := fold_left (theme_step app files) before st).
  destruct (toggle_theme_state app files checked mid) as [T1 [T2 [T3 T4]]].
  cbv zeta in T1, T2, T3, T4.
  pose proof (system_changes_after_override app files after
                (_toggle_theme app files checked mid) T2 Hs) as E.
  unfold theme_run in E. rewrite E.
  split; [exact T1 |]. split; [exact T2 |]. split; [exact T3 |].
  split; [exact T4 |].
  intros look Ho. split; [| apply detect_system_theme_values].
  unfold _on_system_color_scheme_changed, _apply_theme. rewrite Ho.
  assert (Hv : String.eqb (_detect_system_theme look) "light"
               || String.eqb (_detect_system_theme look) "dark" = true).
  { destruct (detect_system_theme_values look) as [-> | ->]; reflexivity. }
  rewrite Hv.
  match goal with |- context [if ?c then _ else _] => destruct c end;
    reflexivity.
Qed.

Lemma theme_follows_last_manual_choice_witness :
  let look := {| app_present := true; has_color_scheme := true;
                 color_scheme := SchemeDark; window_lightness := 30 |} in
  let st := {| _theme_mode := "dark"; _manual_theme_override := false;
               style_sheet := None; toggle_checked := true;
               toggle_text := "Light"; theme_log := [] |} in
  _theme_mode
    (theme_run look {| dark_exists := true; light_exists := true |}
       ([SystemChanged look] ++ Toggled false :: [SystemChanged look]) st)
  = "light".
Proof.
  intros look st.
  apply (theme_follows_last_manual_choice look
           {| dark_exists := true; light_exists := true |}
           [SystemChanged look] [SystemChanged look] false st).
  reflexivity.
Defined.
